(** * Crop analyzer: the [/analyze-farm] endpoint of [server/server.py]

    A shallow embedding of the request handler [analyze_farm] and of its local
    helper [safe_val], with the Python values they manipulate, followed by the
    properties of the handler that the specification states.

    Conventions of the embedding.
    - A parsed JSON document (what [request.get_json()], [getInfo()] and
      [requests.get(..).json()] hand back) is a [json] value; a Python [dict]
      is a finite map with string keys.
    - A Python [float] is an IEEE binary64 value ([spec_float], precision 53);
      a Python [int] is a [Z].  Ordering compares the exact values, with NaN
      unordered, as CPython does for [int] and [float] operands.
    - A Python [str] is a [string] of 8-bit characters; [lower] and
      [capitalize] act on the ASCII letters and leave other characters alone.
    - Raised exceptions are carried as their message ([str(e)]), which is all
      the handler ever uses of them.
    - Every remote round trip is logged in order, so that "no remote call was
      made" is a statement about the log. *)

From Stdlib Require Import ZArith QArith Qabs Lqa Lia String Ascii.
From Stdlib Require Import Floats.SpecFloat.
From stdpp Require Import gmap strings list fin_maps pretty.

Set Warnings "-register-all".

Local Open Scope Z_scope.

(** ** Python values *)

Module Py.

(** The two numeric types that JSON parsing produces. *)
Inductive num :=
| NInt (z : Z)
| NFloat (f : spec_float).

Inductive json :=
| JNull
| JBool (b : bool)
| JNum (n : num)
| JStr (s : string)
| JArr (l : list json)
| JObj (m : gmap string json).

(** A computation that may raise: the exception message, or the value. *)
Definition exn (A : Type) : Type := (string + A)%type.

(** [type(v).__name__] *)
Definition type_name (v : json) : string :=
  match v with
  | JNull => "NoneType"
  | JBool _ => "bool"
  | JNum (NInt _) => "int"
  | JNum (NFloat _) => "float"
  | JStr _ => "str"
  | JArr _ => "list"
  | JObj _ => "dict"
  end.

(** [bool(v)], the test behind [if not v]. *)
Definition truthy (v : json) : bool :=
  match v with
  | JNull => false
  | JBool b => b
  | JNum (NInt z) => negb (z =? 0)
  | JNum (NFloat (S754_zero _)) => false
  | JNum (NFloat _) => true
  | JStr s => negb (String.eqb s "")
  | JArr l => negb (Nat.eqb (length l) 0)
  | JObj m => negb (Nat.eqb (size m) 0)
  end.

Definition attribute_error (v : json) (attr : string) : string :=
  "'" +:+ type_name v +:+ "' object has no attribute '" +:+ attr +:+ "'".

(** [o.get(k, d)]; only a [dict] has the method. *)
Definition get (o : json) (k : string) (d : json) : exn json :=
  match o with
  | JObj m => inr (default d (m !! k))
  | _ => inl (attribute_error o "get")
  end.

(** *** Strings *)

Definition ascii_lower (c : ascii) : ascii :=
  let n := N_of_ascii c in
  if ((65 <=? n) && (n <=? 90))%N then ascii_of_N (n + 32) else c.

Definition ascii_upper (c : ascii) : ascii :=
  let n := N_of_ascii c in
  if ((97 <=? n) && (n <=? 122))%N then ascii_of_N (n - 32) else c.

Fixpoint str_lower (s : string) : string :=
  match s with
  | EmptyString => EmptyString
  | String c r => String (ascii_lower c) (str_lower r)
  end.

(** [s.capitalize()]: first character upper-cased, the rest lower-cased. *)
Definition capitalize (s : string) : string :=
  match s with
  | EmptyString => EmptyString
  | String c r => String (ascii_upper c) (str_lower r)
  end.

(** [v.lower()]; only a [str] has the method. *)
Definition lower (v : json) : exn string :=
  match v with
  | JStr s => inr (str_lower s)
  | _ => inl (attribute_error v "lower")
  end.

(** *** Numbers: exact values and ordering *)

(** The value of a number on the extended rational line. *)
Inductive ext :=
| ENaN
| ENegInf
| EFin (q : Q)
| EPosInf.

Definition float_val (f : spec_float) : ext :=
  match f with
  | S754_zero _ => EFin 0
  | S754_infinity s => if s then ENegInf else EPosInf
  | S754_nan => ENaN
  | S754_finite s m e =>
      let sm := if s then Zneg m else Zpos m in
      match e with
      | Zneg p => EFin (sm # (2 ^ p))
      | _ => EFin (inject_Z (sm * 2 ^ e))
      end
  end.

Definition num_val (n : num) : ext :=
  match n with
  | NInt z => EFin (inject_Z z)
  | NFloat f => float_val f
  end.

Definition ext_le (a b : ext) : bool :=
  match a, b with
  | ENaN, _ | _, ENaN => false
  | ENegInf, _ => true
  | _, EPosInf => true
  | EFin p, EFin q => Qle_bool p q
  | _, _ => false
  end.

Definition ext_lt (a b : ext) : bool :=
  match a, b with
  | ENaN, _ | _, ENaN => false
  | ENegInf, ENegInf => false
  | ENegInf, _ => true
  | EPosInf, _ => false
  | _, EPosInf => true
  | EFin p, EFin q => negb (Qle_bool q p)
  | _, _ => false
  end.

(** What a [bool], [int] or [float] operand counts as in a comparison. *)
Definition as_num (v : json) : option num :=
  match v with
  | JBool b => Some (NInt (Z.b2z b))
  | JNum n => Some n
  | _ => None
  end.

(** [a op b] for an ordering operator.  In this program one operand is always
    the rounded NDVI, a number, so the orderings Python defines between two
    strings or two lists never come up; any non-numeric operand is a
    [TypeError]. *)
Definition compare_op (op : string) (test : ext -> ext -> bool) (a b : json)
  : exn bool :=
  match as_num a, as_num b with
  | Some x, Some y => inr (test (num_val x) (num_val y))
  | _, _ =>
      inl ("'" +:+ op +:+ "' not supported between instances of '"
           +:+ type_name a +:+ "' and '" +:+ type_name b +:+ "'")
  end.

Definition lt : json -> json -> exn bool := compare_op "<" ext_lt.
Definition le : json -> json -> exn bool := compare_op "<=" ext_le.

(** *** [round(x, 4)] *)

Definition prec : Z := 53.
Definition emax : Z := 1024.

(** The binary64 nearest to [k / 10^d] (ties to even), carrying sign [s]:
    what reading the decimal literal gives. *)
Definition float_of_decimal (s : bool) (k : Z) (d : Z) : spec_float :=
  match k with
  | Zpos p =>
      SFdiv prec emax (S754_finite s p 0)
            (S754_finite false (Z.to_pos (10 ^ d)) 0)
  | _ => S754_zero s
  end.

(** The integer nearest to [a / b] for [b > 0], ties to the even one. *)
Definition round_half_even (a b : Z) : Z :=
  let q := a / b in
  match 2 * (a mod b) ?= b with
  | Lt => q
  | Gt => q + 1
  | Eq => if Z.even q then q else q + 1
  end.

(** [m * 2^e * 10^4] rounded to an integer: the digits of the magnitude
    [m * 2^e] once correctly rounded to four decimal places. *)
Definition decimal4 (m : positive) (e : Z) : Z :=
  match e with
  | Zneg p => round_half_even (Zpos m * 10000) (2 ^ Zpos p)
  | _ => Zpos m * 10000 * 2 ^ e
  end.

(** [float.__round__(x, 4)]: the exact value is rounded to four decimals
    (half to even) and the decimal is read back as a binary64; the sign
    survives a result of zero, and NaN and the infinities are returned as they
    are.  A binary64 of magnitude [2^52] or more is an integer and rounds to
    itself, so the conversion back never overflows. *)
Definition float_round4 (x : spec_float) : spec_float :=
  match x with
  | S754_finite s m e => float_of_decimal s (decimal4 m e) 4
  | _ => x
  end.

(** [round(v, 4)]: an [int] (and a [bool], which is one) comes back as an
    [int]; a value without [__round__] is a [TypeError]. *)
Definition round4 (v : json) : exn num :=
  match v with
  | JBool b => inr (NInt (Z.b2z b))
  | JNum (NInt z) => inr (NInt z)
  | JNum (NFloat f) => inr (NFloat (float_round4 f))
  | _ => inl ("type " +:+ type_name v +:+ " doesn't define __round__ method")
  end.

End Py.

(** ** The world outside the handler *)

Import Py.

(** The remote round trips of one request, each with what it was asked. *)
Inductive call :=
| EE_collection_size (coords : json)
| EE_bandNames (coords : json)
| EE_reduceRegion (coords : json)
| EE_centroid (coords : json)
| HTTP_get (url : string).

(** What the collaborators answer.  The Earth Engine objects are built lazily
    on the client, and only [getInfo()] goes to the server; every answer is
    either the decoded value or the exception the client library raises.
    - [ee_Geometry_Polygon]: [ee.Geometry.Polygon(coords)], a client-side
      constructor that rejects malformed coordinates;
    - [collection_size]: [collection.size().getInfo()];
    - [image_bandNames]: [image.bandNames().getInfo()];
    - [reduceRegion_mean]: [indices_image.reduceRegion(..).getInfo()];
    - [centroid_coordinates]: [polygon.centroid().coordinates().getInfo()];
    - [requests_get_json]: [requests.get(url).json()]. *)
Record World := {
  ee_Geometry_Polygon : json -> exn unit;
  collection_size : json -> exn Z;
  image_bandNames : json -> exn (list string);
  reduceRegion_mean : json -> exn (gmap string json);
  centroid_coordinates : json -> exn (list json);
  requests_get_json : string -> exn json
}.

(** Flask's [request]: all the handler asks of it is the parsed body. *)
Record Request := { get_json : exn json }.

(** A view's return value: [jsonify(body), status]. *)
Record Response := { body : json; status : Z }.

(** ** Effects: exceptions and the log of remote calls *)

#[export] Instance exn_ret : MRet exn := fun A a => inr a.
#[export] Instance exn_bind : MBind exn :=
  fun A B k m => match m with inl e => inl e | inr a => k a end.

Definition M (A : Type) : Type := list call -> exn A * list call.

#[export] Instance M_ret : MRet M := fun A a t => (inr a, t).
#[export] Instance M_bind : MBind M :=
  fun A B k m t =>
    match m t with
    | (inr a, t') => k a t'
    | (inl e, t') => (inl e, t')
    end.

(** A local step: it may raise, it calls nobody. *)
Definition lift {A} (r : exn A) : M A := fun t => (r, t).

(** A remote step: the call is logged whether or not it comes back. *)
Definition remote {A} (c : call) (r : exn A) : M A := fun t => (r, t ++ [c]).

(** [lon, lat = centroid] *)
Definition unpack2 (py_str : json -> string) (l : list json) : exn (json * json) :=
  match l with
  | [a; b] => inr (a, b)
  | _ :: _ :: _ => inl "too many values to unpack (expected 2)"
  | _ =>
      inl ("not enough values to unpack (expected 2, got "
           +:+ py_str (JNum (NInt (Z.of_nat (length l)))) +:+ ")")
  end.

(** ** The handler *)

Section Handler.

(** [str(v)], as the f-strings apply it to a value; its text is not modelled. *)
Variable py_str : json -> string.

(** The table read from [crop_ndvi_ranges.json] when the module is loaded: a
    mapping from crop name to an entry, nominally
    [{"ndvi_min": .., "ndvi_max": ..}]. *)
Variable crop_ranges : gmap string json.

Definition jsonify (fields : list (string * json)) : json :=
  JObj (list_to_map fields).

Definition error (msg : string) (code : Z) : Response :=
  {| body := jsonify [("error", JStr msg)]; status := code |}.

(** [crop_ranges.get(crop_type, {}).get(bound)] *)
Definition range_bound (crop_type bound : string) : exn json :=
  entry ← get (JObj crop_ranges) crop_type (JObj ∅);
  get entry bound JNull.

Definition bands : list string := ["B2"; "B3"; "B4"; "B8"; "B11"].

(** [safe_val(name)], closed over [mean_stats]. *)
Definition safe_val (mean_stats : gmap string json) (name : string) : exn num :=
  let val := default JNull (mean_stats !! name) in
  match val with
  | JNull => inr (NFloat (S754_zero false))
  | _ => round4 val
  end.

(** The [if]/[elif]/[else] that assigns [health_status]; the chained
    comparison of the [elif] evaluates its second half only when the first
    holds. *)
Definition health_status (crop_type : string) (mean_ndvi : num)
    (ndvi_min ndvi_max : json) : exn string :=
  below ← lt (JNum mean_ndvi) ndvi_min;
  if (below : bool) then
    mret (capitalize crop_type
          +:+ " shows stress or poor vegetation (Unhealthy). OR maybe bare soil.")
  else
    above_min ← le ndvi_min (JNum mean_ndvi);
    within ← (if (above_min : bool) then le (JNum mean_ndvi) ndvi_max
              else mret false);
    if (within : bool) then mret (capitalize crop_type +:+ " crop appears Healthy.")
    else mret "Excess greenness detected (possibly weeds or dense canopy).".

Definition weather_url (lat lon : json) : string :=
  "https://api.open-meteo.com/v1/forecast?"
  +:+ "latitude=" +:+ py_str lat +:+ "&longitude=" +:+ py_str lon +:+ "&current="
  +:+ "temperature_2m,relative_humidity_2m,precipitation,rain,wind_speed_10m".

(** The body of the [try] block. *)
Definition analyze_farm_try (W : World) (request : Request) : M Response :=
  data ← lift (get_json request);
  coords ← lift (get data "coordinates" JNull);
  crop_type_field ← lift (get data "crop_type" (JStr ""));
  crop_type ← lift (lower crop_type_field);
  if negb (truthy coords) then mret (error "No coordinates provided" 400)
  else if negb (truthy (JStr crop_type)) then
    mret (error "No crop type provided" 400)
  else
    ndvi_min ← lift (range_bound crop_type "ndvi_min");
    ndvi_max ← lift (range_bound crop_type "ndvi_max");
    _ ← lift (ee_Geometry_Polygon W coords);
    size ← remote (EE_collection_size coords) (collection_size W coords);
    if (size : Z) =? 0 then
      mret (error "No Sentinel-2 images found for the given area/date range." 404)
    else
      available_bands ← remote (EE_bandNames coords) (image_bandNames W coords);
      let missing := filter (fun b => b ∉ (available_bands : list string)) bands in
      if negb (Nat.eqb (length missing) 0) then
        mret (error ("Missing bands: " +:+ py_str (JArr (JStr <$> missing))
                     +:+ ". Available: "
                     +:+ py_str (JArr (JStr <$> available_bands))) 500)
      else
        mean_stats ← remote (EE_reduceRegion coords) (reduceRegion_mean W coords);
        centroid ← remote (EE_centroid coords) (centroid_coordinates W coords);
        lon_lat ← lift (unpack2 py_str centroid);
        let url := weather_url (snd lon_lat) (fst lon_lat) in
        weather_res ← remote (HTTP_get url) (requests_get_json W url);
        current ← lift (get weather_res "current" (JObj ∅));
        temp ← lift (get current "temperature_2m" (JNum (NInt 0)));
        rain ← lift (get current "rain" (JNum (NInt 0)));
        mean_ndvi ← lift (safe_val mean_stats "NDVI");
        hs ← lift (health_status crop_type mean_ndvi ndvi_min ndvi_max);
        v_ndvi ← lift (safe_val mean_stats "NDVI");
        v_evi ← lift (safe_val mean_stats "EVI");
        v_ndwi ← lift (safe_val mean_stats "NDWI");
        v_msi ← lift (safe_val mean_stats "MSI");
        v_green ← lift (safe_val mean_stats "B3");
        v_red ← lift (safe_val mean_stats "B4");
        v_nir ← lift (safe_val mean_stats "B8");
        humidity ← lift (get current "relative_humidity_2m" JNull);
        wind_speed ← lift (get current "wind_speed_10m" JNull);
        mret {| body := jsonify [
                  ("indices", jsonify [
                     ("NDVI", JNum v_ndvi);
                     ("EVI", JNum v_evi);
                     ("NDWI", JNum v_ndwi);
                     ("MSI", JNum v_msi);
                     ("GREEN", JNum v_green);
                     ("RED", JNum v_red);
                     ("NIR", JNum v_nir)]);
                  ("weather", jsonify [
                     ("temperature", temp);
                     ("humidity", humidity);
                     ("wind_speed", wind_speed);
                     ("rain", rain)]);
                  ("crop_type", JStr crop_type);
                  ("healthy_range",
                   JStr (py_str ndvi_min +:+ " - " +:+ py_str ndvi_max));
                  ("health_status", JStr hs)];
                status := 200 |}.

(** [analyze_farm]: the [try] block, with [except Exception as e] turning
    anything raised into a 500 that carries [str(e)].  The result is the
    response together with the remote calls made, in order. *)
Definition analyze_farm (W : World) (request : Request) : Response * list call :=
  match analyze_farm_try W request [] with
  | (inr r, t) => (r, t)
  | (inl e, t) => (error e 500, t)
  end.

End Handler.

(** ** The data the properties talk about *)

(** The seven keys of the [indices] object, each with the band or index of
    [mean_stats] it is read from. *)
Definition index_sources : list (string * string) :=
  [("NDVI", "NDVI"); ("EVI", "EVI"); ("NDWI", "NDWI"); ("MSI", "MSI");
   ("GREEN", "B3"); ("RED", "B4"); ("NIR", "B8")].

(** The request is a JSON object with a non-empty boundary [coords] and a
    crop name that lower-cases to the non-empty [crop_type]. *)
Definition valid_request (request : Request) (coords : json) (crop_type : string)
  : Prop :=
  exists (d : gmap string json) (s : string),
    get_json request = inr (JObj d)
    /\ d !! "coordinates" = Some coords
    /\ truthy coords = true
    /\ d !! "crop_type" = Some (JStr s)
    /\ crop_type = str_lower s
    /\ truthy (JStr crop_type) = true.

(** Evaluation gets as far as the first remote call: the request is valid,
    the two bounds are read from the table without an exception, and the
    polygon is built. *)
Definition accepted (crop_ranges : gmap string json) (W : World)
    (request : Request) (coords : json) (crop_type : string)
    (ndvi_min ndvi_max : json) : Prop :=
  valid_request request coords crop_type
  /\ range_bound crop_ranges crop_type "ndvi_min" = inr ndvi_min
  /\ range_bound crop_ranges crop_type "ndvi_max" = inr ndvi_max
  /\ ee_Geometry_Polygon W coords = inr tt.

(** The collaborators deliver everything up to and including the weather
    lookup: some scenes, all five bands, the statistics [mean_stats], a
    centroid, and a weather object whose [current] readings are [cur] (empty
    when the object has no [current]). *)
Definition upstream_ok (py_str : json -> string) (W : World) (coords : json)
    (mean_stats cur : gmap string json) : Prop :=
  exists (n : Z) (names : list string) (lon lat : json)
         (forecast : gmap string json),
    collection_size W coords = inr n
    /\ (n =? 0) = false
    /\ image_bandNames W coords = inr names
    /\ filter (fun b => b ∉ names) bands = []
    /\ reduceRegion_mean W coords = inr mean_stats
    /\ centroid_coordinates W coords = inr [lon; lat]
    /\ requests_get_json W (weather_url py_str lat lon) = inr (JObj forecast)
    /\ default (JObj ∅) (forecast !! "current") = JObj cur.

(** The same collaborators, except that the weather service answers
    [forecast]. *)
Definition with_forecast (W : World) (forecast : json) : World :=
  {| ee_Geometry_Polygon := ee_Geometry_Polygon W;
     collection_size := collection_size W;
     image_bandNames := image_bandNames W;
     reduceRegion_mean := reduceRegion_mean W;
     centroid_coordinates := centroid_coordinates W;
     requests_get_json := fun _ => inr forecast |}.

(** The [weather] object of a response whose [current] readings are [cur]. *)
Definition weather_of (cur : gmap string json) : json :=
  jsonify [
    ("temperature", default (JNum (NInt 0)) (cur !! "temperature_2m"));
    ("humidity", default JNull (cur !! "relative_humidity_2m"));
    ("wind_speed", default JNull (cur !! "wind_speed_10m"));
    ("rain", default (JNum (NInt 0)) (cur !! "rain"))].

(** ** A reference scenario

    A square field, wheat with the range 0.3 to 0.7, and collaborators that
    answer with fixed values. *)

Module Scenario.

(** The [float] a decimal literal [k / 10^d] denotes. *)
Definition decimal (k d : Z) : json := JNum (NFloat (float_of_decimal false k d)).

(** A stand-in for [str]: exact on [None], booleans, integers, strings and
    lists of plain strings. *)
Definition quoted (v : json) : string :=
  match v with
  | JStr s => "'" +:+ s +:+ "'"
  | _ => "<value>"
  end.

Definition str (v : json) : string :=
  match v with
  | JNull => "None"
  | JBool b => if b then "True" else "False"
  | JNum (NInt z) => pretty z
  | JStr s => s
  | JArr l => "[" +:+ String.concat ", " (quoted <$> l) +:+ "]"
  | _ => "<value>"
  end.

Definition ranges : gmap string json :=
  {[ "wheat" := jsonify [("ndvi_min", decimal 3 1); ("ndvi_max", decimal 7 1)] ]}.

Definition square : json :=
  JArr [JArr [JArr [decimal 300 1; decimal 100 1];
              JArr [decimal 310 1; decimal 100 1];
              JArr [decimal 310 1; decimal 110 1];
              JArr [decimal 300 1; decimal 110 1]]].

Definition all_bands : list string :=
  ["B1"; "B2"; "B3"; "B4"; "B5"; "B8"; "B11"; "B12"].

Definition stats : gmap string json :=
  list_to_map [
    ("NDVI", decimal 55 2); ("EVI", decimal 4 1); ("NDWI", decimal 1 1);
    ("MSI", decimal 9 1); ("B3", decimal 5 2); ("B4", decimal 7 2);
    ("B8", decimal 3 1)].

Definition current : gmap string json :=
  list_to_map [
    ("temperature_2m", decimal 285 1);
    ("relative_humidity_2m", JNum (NInt 40));
    ("wind_speed_10m", decimal 120 1);
    ("rain", JNum (NInt 0))].

Definition weather : json := jsonify [("current", JObj current)].

(** Collaborators that report [size] scenes with the bands [names], and
    answer the weather request with [forecast]. *)
Definition world (size : Z) (names : list string) (forecast : json) : World :=
  {| ee_Geometry_Polygon := fun _ => inr tt;
     collection_size := fun _ => inr size;
     image_bandNames := fun _ => inr names;
     reduceRegion_mean := fun _ => inr stats;
     centroid_coordinates := fun _ => inr [decimal 305 1; decimal 105 1];
     requests_get_json := fun _ => inr forecast |}.

Definition request (fields : list (string * json)) : Request :=
  {| get_json := inr (jsonify fields) |}.

Definition wheat_request : Request :=
  request [("coordinates", square); ("crop_type", JStr "Wheat")].

(** Three scenes, every band, the full forecast. *)
Definition clear_sky : World := world 3 all_bands weather.

(** No scene in the window. *)
Definition no_scenes : World := world 0 all_bands weather.

(** A composite without the short-wave infrared band. *)
Definition no_swir : World := world 3 ["B2"; "B3"; "B4"; "B8"] weather.

(** A forecast without the [current] object. *)
Definition no_current : World := world 3 all_bands (jsonify []).

Definition rice_request : Request :=
  request [("coordinates", square); ("crop_type", JStr "Rice")].

(** The handler in this setting. *)
Definition run (W : World) (request : Request) : Response * list call :=
  analyze_farm str ranges W request.

(** The status of wheat with the range 0.2 to 0.8 at a mean NDVI of
    [k / 10^4]. *)
Definition wheat_min : num := NFloat (float_of_decimal false 2 1).
Definition wheat_max : num := NFloat (float_of_decimal false 8 1).
Definition wheat_status (k : Z) : exn string :=
  health_status "wheat" (NFloat (float_of_decimal false k 4))
    (JNum wheat_min) (JNum wheat_max).

End Scenario.

(** ** The order of the remote calls *)

(** The five remote calls of a complete evaluation, in the order of the
    source: collection size, band names, regional statistics, centroid, and
    the weather request. *)
Definition pipeline_calls (coords : json) (url : string) : list call :=
  [EE_collection_size coords; EE_bandNames coords; EE_reduceRegion coords;
   EE_centroid coords; HTTP_get url].

(** ** Faulty collaborators and tables

    Variations of the reference scenario in which something goes wrong. *)

Module Faults.

(** The collaborators of the reference scenario, each answering what it is
    given here. *)
Definition world (polygon : exn unit) (size : exn Z) (names : exn (list string))
    (statistics : exn (gmap string json)) (centroid : exn (list json))
    (forecast : exn json) : World :=
  {| ee_Geometry_Polygon := fun _ => polygon;
     collection_size := fun _ => size;
     image_bandNames := fun _ => names;
     reduceRegion_mean := fun _ => statistics;
     centroid_coordinates := fun _ => centroid;
     requests_get_json := fun _ => forecast |}.

Definition centre : list json :=
  [Scenario.decimal 305 1; Scenario.decimal 105 1].

(** The weather service cannot be reached. *)
Definition weather_down : World :=
  world (inr tt) (inr 3) (inr Scenario.all_bands) (inr Scenario.stats)
    (inr centre) (inl "Connection refused").

(** The weather service answers with a null [current]. *)
Definition null_current : World :=
  world (inr tt) (inr 3) (inr Scenario.all_bands) (inr Scenario.stats)
    (inr centre) (inr (jsonify [("current", JNull)])).

(** The statistics hold a text where the EVI should be. *)
Definition text_evi : World :=
  world (inr tt) (inr 3) (inr Scenario.all_bands)
    (inr (<["EVI" := JStr "n/a"]> Scenario.stats)) (inr centre)
    (inr Scenario.weather).

(** The region has no valid pixel: every statistic is null. *)
Definition no_pixels : World :=
  world (inr tt) (inr 3) (inr Scenario.all_bands)
    (inr (list_to_map [("NDVI", JNull); ("EVI", JNull); ("NDWI", JNull);
                       ("MSI", JNull); ("B3", JNull); ("B4", JNull);
                       ("B8", JNull)]))
    (inr centre) (inr Scenario.weather).

(** The polygon constructor rejects the coordinates. *)
Definition bad_polygon : World :=
  world (inl "Invalid GeoJSON geometry.") (inr 3) (inr Scenario.all_bands)
    (inr Scenario.stats) (inr centre) (inr Scenario.weather).

(** A table whose wheat entry is a number, and one whose wheat entry has a
    lower bound only. *)
Definition number_entry : gmap string json := {[ "wheat" := JNum (NInt 5) ]}.
Definition min_only : gmap string json :=
  {[ "wheat" := jsonify [("ndvi_min", Scenario.decimal 3 1)] ]}.

End Faults.

(** ** Running the handler step by step *)

Lemma bind_lift {A B} (r : exn A) (k : A -> M B) (t : list call) :
  (lift r ≫= k) t = match r with inr a => k a t | inl e => (inl e, t) end.
Proof. unfold mbind, M_bind, lift. destruct r; reflexivity. Qed.

Lemma bind_remote {A B} (c : call) (r : exn A) (k : A -> M B) (t : list call) :
  (remote c r ≫= k) t
  = match r with inr a => k a (t ++ [c]) | inl e => (inl e, t ++ [c]) end.
Proof. unfold mbind, M_bind, remote. destruct r; reflexivity. Qed.

Lemma ret_run {A} (a : A) (t : list call) : (mret a : M A) t = (inr a, t).
Proof. reflexivity. Qed.

(** Forward execution of the goal: each step is resolved by an equation of
    the context that tells what the step returns. *)
Ltac run_handler :=
  unfold analyze_farm, analyze_farm_try;
  repeat first
    [ rewrite bind_lift
    | rewrite bind_remote
    | rewrite ret_run
    | match goal with
      | H : ?e = _ |- context [match ?e with _ => _ end] => rewrite H
      | H : ?e = _ |- context [if ?e then _ else _] => rewrite H
      | H : ?m !! ?k = _ |- context [?m !! ?k] => rewrite H
      | H : truthy ?v = _ |- context [truthy ?v] => rewrite H
      | H : default ?a ?b = _ |- context [default ?a ?b] => rewrite H
      | H : filter ?P ?l = _ |- context [filter ?P ?l] => rewrite H
      end
    | progress cbn [get lower unpack2 default from_option id negb fst snd app
                    length Nat.eqb with_forecast ee_Geometry_Polygon
                    collection_size image_bandNames reduceRegion_mean
                    centroid_coordinates requests_get_json] ].

(** Backward execution of a hypothesis [H] that says the handler answered [r]
    with [Hs : status r = 200]: every step is split, and the branches that end
    in an error response contradict [Hs]. *)
Ltac not_ok H Hs :=
  solve [ cbn in H; injection H as <- <-; cbn in Hs; discriminate Hs ].

Ltac split_steps H Hs :=
  repeat first
    [ rewrite bind_lift in H
    | rewrite bind_remote in H
    | rewrite ret_run in H
    | match type of H with
      | context [match ?e with inl _ => _ | inr _ => _ end] =>
          destruct e eqn:?; [ not_ok H Hs | ]
      | context [if ?b then _ else _] =>
          destruct b eqn:?; try not_ok H Hs
      end ].

(** ** Facts about the values *)



Lemma Qle_bool_false (p q : Q) : Qle_bool p q = false <-> (q < p)%Q.
Proof.
  split; intros H.
  - apply Qnot_le_lt. intros Hle. apply Qle_bool_iff in Hle. congruence.
  - destruct (Qle_bool p q) eqn:E; [| reflexivity].
    apply Qle_bool_iff in E. lra.
Qed.

Ltac ext_order :=
  intros;
  repeat match goal with a : ext |- _ => destruct a end;
  cbn in *; try congruence;
  repeat match goal with
    | H : negb _ = true |- _ => apply negb_true_iff in H
    | H : negb _ = false |- _ => apply negb_false_iff in H
    | H : Qle_bool _ _ = true |- _ => apply Qle_bool_iff in H
    | H : Qle_bool _ _ = false |- _ => apply Qle_bool_false in H
    | |- negb _ = true => apply negb_true_iff
    | |- negb _ = false => apply negb_false_iff
    | |- Qle_bool _ _ = true => apply Qle_bool_iff
    | |- Qle_bool _ _ = false => apply Qle_bool_false
    end;
  try lra.

Lemma ext_le_lt_false (a b : ext) : ext_le a b = true -> ext_lt b a = false.
Proof. ext_order. Qed.

Lemma ext_lt_le_false (a b : ext) : ext_lt a b = true -> ext_le b a = false.
Proof. ext_order. Qed.

Lemma ext_lt_le (a b : ext) : ext_lt a b = true -> ext_le a b = true.
Proof. ext_order. Qed.

Lemma ext_le_lt_trans (a b c : ext) :
  ext_le a b = true -> ext_lt b c = true -> ext_lt a c = true.
Proof. ext_order. Qed.

(** ** The model at work *)

(** [0.1] is [0x1.999999999999ap-4]. *)
Example float_of_decimal_tenth :
  float_of_decimal false 1 1 = S754_finite false 7205759403792794 (-56).
Proof. vm_compute. reflexivity. Qed.

(** [round(0.123456789, 4) == 0.1235], [round(0.00005, 4) == 0.0001],
    [round(0.00015, 4) == 0.0001] (the float lies below the tie),
    [round(-0.00001, 4) == -0.0], and the largest float rounds to itself. *)
Example float_round4_values :
  float_round4 (float_of_decimal false 123456789 9) = float_of_decimal false 1235 4
  /\ float_round4 (float_of_decimal false 5 5) = float_of_decimal false 1 4
  /\ float_round4 (float_of_decimal false 15 5) = float_of_decimal false 1 4
  /\ float_round4 (float_of_decimal true 1 5) = S754_zero true
  /\ float_round4 (S754_finite false 9007199254740991 971)
     = S754_finite false 9007199254740991 971.
Proof. vm_compute. tauto. Qed.

(** The reference scenario end to end: wheat at a mean NDVI of 0.55 within
    0.3 to 0.7 is healthy, after the five remote calls in order. *)
Example scenario_healthy :
  exists (out : gmap string json) (url : string),
    Scenario.run Scenario.clear_sky Scenario.wheat_request
    = ({| body := JObj out; status := 200 |},
       [EE_collection_size Scenario.square; EE_bandNames Scenario.square;
        EE_reduceRegion Scenario.square; EE_centroid Scenario.square;
        HTTP_get url])
    /\ out !! "crop_type" = Some (JStr "wheat")
    /\ out !! "health_status" = Some (JStr "Wheat crop appears Healthy.")
    /\ out !! "weather" = Some (weather_of Scenario.current).
Proof.
  eexists _, _. split; [vm_compute; reflexivity |].
  split; [| split]; vm_compute; reflexivity.
Qed.

(** ** Classification *)

(** C1.  The health status is a three-way comparison of the mean NDVI with the
    reference bounds of the crop.  For numeric bounds with
    [ndvi_min <= ndvi_max]: a mean below [ndvi_min] gives the "stress"
    message, a mean between the bounds (either bound included) gives the
    "healthy" message, and a mean above [ndvi_max] gives the "excess
    greenness" message; none of the cases raises. *)
Theorem health_status_three_way
    (crop_type : string) (mean_ndvi ndvi_min ndvi_max : num) :
  ext_le (num_val ndvi_min) (num_val ndvi_max) = true ->
  (ext_lt (num_val mean_ndvi) (num_val ndvi_min) = true ->
   health_status crop_type mean_ndvi (JNum ndvi_min) (JNum ndvi_max)
   = inr (capitalize crop_type
          +:+ " shows stress or poor vegetation (Unhealthy). OR maybe bare soil."))
  /\ (ext_le (num_val ndvi_min) (num_val mean_ndvi) = true ->
      ext_le (num_val mean_ndvi) (num_val ndvi_max) = true ->
      health_status crop_type mean_ndvi (JNum ndvi_min) (JNum ndvi_max)
      = inr (capitalize crop_type +:+ " crop appears Healthy."))
  /\ (ext_lt (num_val ndvi_max) (num_val mean_ndvi) = true ->
      health_status crop_type mean_ndvi (JNum ndvi_min) (JNum ndvi_max)
      = inr "Excess greenness detected (possibly weeds or dense canopy).").
Proof.
  intros Hrange. unfold health_status, lt, le, compare_op. cbn.
  split; [| split].
  - intros Hlow. now rewrite Hlow.
  - intros Hmin Hmax.
    rewrite (ext_le_lt_false _ _ Hmin), Hmin. cbn. now rewrite Hmax.
  - intros Hhigh.
    pose proof (ext_le_lt_trans _ _ _ Hrange Hhigh) as Hlt.
    rewrite (ext_le_lt_false _ _ (ext_lt_le _ _ Hlt)), (ext_lt_le _ _ Hlt).
    cbn. now rewrite (ext_lt_le_false _ _ Hhigh).
Qed.

Lemma health_status_three_way_witness :
  ext_le (num_val Scenario.wheat_min) (num_val Scenario.wheat_max) = true
  /\ Scenario.wheat_status 1999
     = inr "Wheat shows stress or poor vegetation (Unhealthy). OR maybe bare soil."
  /\ Scenario.wheat_status 2000 = inr "Wheat crop appears Healthy."
  /\ Scenario.wheat_status 8000 = inr "Wheat crop appears Healthy."
  /\ Scenario.wheat_status 8001
     = inr "Excess greenness detected (possibly weeds or dense canopy).".
Proof.
  assert (Hrange : ext_le (num_val Scenario.wheat_min)
                     (num_val Scenario.wheat_max) = true)
    by (vm_compute; reflexivity).
  unfold Scenario.wheat_status.
  split; [exact Hrange |].
  split; [| split; [| split]].
  - apply (proj1 (health_status_three_way "wheat" _ _ _ Hrange)).
    vm_compute; reflexivity.
  - apply (proj1 (proj2 (health_status_three_way "wheat" _ _ _ Hrange)));
      vm_compute; reflexivity.
  - apply (proj1 (proj2 (health_status_three_way "wheat" _ _ _ Hrange)));
      vm_compute; reflexivity.
  - apply (proj2 (proj2 (health_status_three_way "wheat" _ _ _ Hrange))).
    vm_compute; reflexivity.
Defined.

(** ** Normalisation of the index values *)

Lemma round_half_even_nearest (a b : Z) :
  0 < b -> 2 * Z.abs (round_half_even a b * b - a) <= b.
Proof.
  intros Hb. unfold round_half_even.
  pose proof (Z.div_mod a b ltac:(lia)) as Hdm.
  pose proof (Z.mod_pos_bound a b Hb) as Hr.
  set (q := a / b) in *. set (r := a mod b) in *.
  destruct (Z.compare_spec (2 * r) b); [destruct (Z.even q) | |]; lia.
Qed.

(** The digits chosen by [decimal4] are within half a unit of the fourth
    decimal place of the exact value. *)
Lemma decimal4_nearest (m : positive) (e : Z) (q : Q) :
  float_val (S754_finite false m e) = EFin q ->
  (Qabs (inject_Z (decimal4 m e) - 10000 * q) <= 1 # 2)%Q.
Proof.
  intros Hq. apply Qabs_Qle_condition.
  destruct e as [| p | p]; cbn [float_val decimal4] in *; injection Hq as <-.
  - unfold Qle, Qminus, Qplus, Qmult, Qopp, inject_Z; cbn. lia.
  - unfold Qle, Qminus, Qplus, Qmult, Qopp, inject_Z; cbn. lia.
  - pose proof (round_half_even_nearest (Zpos m * 10000) (2 ^ Zpos p)
                  ltac:(lia)) as Hn.
    set (k := round_half_even _ _) in *.
    unfold Qle, Qminus, Qplus, Qmult, Qopp, inject_Z; cbn.
    rewrite !Pos.mul_1_l, !Pos2Z.inj_pow.
    set (B := 2 ^ Zpos p) in *. lia.
Qed.

(** C6.  Value normalisation.  A missing or null statistic is reported as
    exactly [0.0]; a finite float is reported as the float that the decimal
    [k / 10^4] denotes, where [k] is within one half of [10^4] times its
    magnitude (so [0.123456789] is reported as [0.1235]); an integer, a zero,
    an infinity or a NaN is reported as it is.  In every successful response
    each of the seven index keys holds the number [safe_val] gives for its
    band, never a null. *)
Theorem safe_val_normalizes :
  (forall (mean_stats : gmap string json) (name : string),
      mean_stats !! name = None \/ mean_stats !! name = Some JNull ->
      safe_val mean_stats name = inr (NFloat (S754_zero false)))
  /\ (forall (mean_stats : gmap string json) (name : string) s m e q,
        mean_stats !! name = Some (JNum (NFloat (S754_finite s m e))) ->
        float_val (S754_finite false m e) = EFin q ->
        exists k : Z,
          (Qabs (inject_Z k - 10000 * q) <= 1 # 2)%Q
          /\ safe_val mean_stats name = inr (NFloat (float_of_decimal s k 4)))
  /\ (forall (mean_stats : gmap string json) (name : string) (n : num),
        mean_stats !! name = Some (JNum n) ->
        (forall s m e, n <> NFloat (S754_finite s m e)) ->
        safe_val mean_stats name = inr n)
  /\ safe_val {[ "NDVI" := Scenario.decimal 123456789 9 ]} "NDVI"
     = inr (NFloat (float_of_decimal false 1235 4))
  /\ (forall py_str crop_ranges W request r t,
        analyze_farm py_str crop_ranges W request = (r, t) ->
        status r = 200 ->
        exists coords (mean_stats out idx : gmap string json),
          reduceRegion_mean W coords = inr mean_stats
          /\ body r = JObj out
          /\ out !! "indices" = Some (JObj idx)
          /\ forall key name, (key, name) ∈ index_sources ->
               exists v : num,
                 safe_val mean_stats name = inr v /\ idx !! key = Some (JNum v)).
Proof.
  split; [| split; [| split; [| split]]].
  - intros mean_stats name [H | H]; unfold safe_val; now rewrite H.
  - intros mean_stats name s m e q H Hq. exists (decimal4 m e). split.
    + now apply decimal4_nearest.
    + unfold safe_val. now rewrite H.
  - intros mean_stats name n H Hn. unfold safe_val. rewrite H. cbn.
    destruct n as [z | [sg | sg | | sg m e]]; try reflexivity.
    now destruct (Hn sg m e).
  - vm_compute. reflexivity.
  - intros py_str crop_ranges W request r t H Hs.
    unfold analyze_farm, analyze_farm_try in H. split_steps H Hs.
    cbn in H. injection H as <- <-.
    eexists _, _, _, _. split; [eassumption |]. split; [reflexivity |].
    split; [reflexivity |].
    intros key name Hin. unfold index_sources in Hin.
    repeat (apply elem_of_cons in Hin as [Hin | Hin];
            [injection Hin as -> ->; eexists; split;
             [eassumption | vm_compute; reflexivity] |]).
    now apply elem_of_nil in Hin.
Qed.

Lemma safe_val_normalizes_witness :
  status (Scenario.run Scenario.clear_sky Scenario.wheat_request).1 = 200
  /\ exists coords (mean_stats out idx : gmap string json),
       reduceRegion_mean Scenario.clear_sky coords = inr mean_stats
       /\ body (Scenario.run Scenario.clear_sky Scenario.wheat_request).1
          = JObj out
       /\ out !! "indices" = Some (JObj idx)
       /\ forall key name, (key, name) ∈ index_sources ->
            exists v : num,
              safe_val mean_stats name = inr v /\ idx !! key = Some (JNum v).
Proof.
  split; [vm_compute; reflexivity |].
  refine (proj2 (proj2 (proj2 (proj2 safe_val_normalizes)))
            Scenario.str Scenario.ranges _ Scenario.wheat_request _ _ _ _).
  - apply surjective_pairing.
  - vm_compute; reflexivity.
Defined.

(** ** Shape of a successful response *)

(** C7.  A successful response (status 200) carries an [indices] object whose
    keys are exactly NDVI, EVI, NDWI, MSI, GREEN, RED and NIR, whatever the
    collaborators answered. *)
Theorem indices_exactly_seven
    (py_str : json -> string) (crop_ranges : gmap string json)
    (W : World) (request : Request) (r : Response) (t : list call) :
  analyze_farm py_str crop_ranges W request = (r, t) ->
  status r = 200 ->
  exists out idx : gmap string json,
    body r = JObj out
    /\ out !! "indices" = Some (JObj idx)
    /\ dom idx
       = list_to_set ["NDVI"; "EVI"; "NDWI"; "MSI"; "GREEN"; "RED"; "NIR"].
Proof.
  intros H Hs. unfold analyze_farm, analyze_farm_try in H.
  split_steps H Hs. cbn in H. injection H as <- <-.
  eexists _, _. split; [reflexivity |]. split; [reflexivity |].
  vm_compute. reflexivity.
Qed.

Lemma indices_exactly_seven_witness :
  status (Scenario.run Scenario.clear_sky Scenario.wheat_request).1 = 200
  /\ exists out idx : gmap string json,
       body (Scenario.run Scenario.clear_sky Scenario.wheat_request).1 = JObj out
       /\ out !! "indices" = Some (JObj idx)
       /\ dom idx
          = list_to_set ["NDVI"; "EVI"; "NDWI"; "MSI"; "GREEN"; "RED"; "NIR"].
Proof.
  split; [vm_compute; reflexivity |].
  apply (indices_exactly_seven Scenario.str Scenario.ranges Scenario.clear_sky
           Scenario.wheat_request _
           (Scenario.run Scenario.clear_sky Scenario.wheat_request).2).
  - apply surjective_pairing.
  - vm_compute; reflexivity.
Defined.

(** ** Validation *)

(** C2, as the handler implements it.  Take a request whose body is a JSON
    object in which [crop_type] is absent or a string.  If [coordinates] is
    absent or empty the response is the 400 "No coordinates provided";
    otherwise, if [crop_type] is absent or lower-cases to the empty string,
    it is the 400 "No crop type provided".  In both cases no remote call has
    been made. *)
Theorem invalid_input_fails_fast
    (py_str : json -> string) (crop_ranges : gmap string json)
    (W : World) (request : Request) (d : gmap string json) :
  get_json request = inr (JObj d) ->
  (d !! "crop_type" = None \/ exists s, d !! "crop_type" = Some (JStr s)) ->
  (truthy (default JNull (d !! "coordinates")) = false ->
   analyze_farm py_str crop_ranges W request
   = (error "No coordinates provided" 400, []))
  /\ (truthy (default JNull (d !! "coordinates")) = true ->
      (d !! "crop_type" = None
       \/ exists s, d !! "crop_type" = Some (JStr s) /\ str_lower s = "") ->
      analyze_farm py_str crop_ranges W request
      = (error "No crop type provided" 400, [])).
Proof.
  intros Hreq Hstr. split.
  - intros Hcoords. destruct Hstr as [Hct | [s Hct]]; now run_handler.
  - intros Hcoords [Hct | (s & Hct & Hs)]; run_handler.
    + reflexivity.
    + rewrite Hs. reflexivity.
Qed.

Lemma invalid_input_fails_fast_witness :
  Scenario.run Scenario.clear_sky
    (Scenario.request [("crop_type", JStr "wheat")])
  = (error "No coordinates provided" 400, [])
  /\ Scenario.run Scenario.clear_sky
       (Scenario.request [("coordinates", JArr []); ("crop_type", JStr "wheat")])
     = (error "No coordinates provided" 400, [])
  /\ Scenario.run Scenario.clear_sky
       (Scenario.request [("coordinates", Scenario.square)])
     = (error "No crop type provided" 400, [])
  /\ Scenario.run Scenario.clear_sky
       (Scenario.request [("coordinates", Scenario.square); ("crop_type", JStr "")])
     = (error "No crop type provided" 400, []).
Proof.
  unfold Scenario.run. split; [| split; [| split]].
  - refine (proj1 (invalid_input_fails_fast _ _ _ _
                     (list_to_map [("crop_type", JStr "wheat")]) _ _) _).
    + reflexivity.
    + right. exists "wheat". vm_compute; reflexivity.
    + vm_compute; reflexivity.
  - refine (proj1 (invalid_input_fails_fast _ _ _ _
                     (list_to_map [("coordinates", JArr []);
                                   ("crop_type", JStr "wheat")]) _ _) _).
    + reflexivity.
    + right. exists "wheat". vm_compute; reflexivity.
    + vm_compute; reflexivity.
  - refine (proj2 (invalid_input_fails_fast _ _ _ _
                     (list_to_map [("coordinates", Scenario.square)]) _ _) _ _).
    + reflexivity.
    + left. vm_compute; reflexivity.
    + vm_compute; reflexivity.
    + left. vm_compute; reflexivity.
  - refine (proj2 (invalid_input_fails_fast _ _ _ _
                     (list_to_map [("coordinates", Scenario.square);
                                   ("crop_type", JStr "")]) _ _) _ _).
    + reflexivity.
    + right. exists "". vm_compute; reflexivity.
    + vm_compute; reflexivity.
    + right. exists "". split; vm_compute; reflexivity.
Defined.

(** C2, as stated, fails: with [coordinates] absent and [crop_type] null the
    handler answers 500 with the message of the [AttributeError], not the 400
    "No coordinates provided". *)
Lemma invalid_input_null_crop_type :
  (list_to_map [("crop_type", JNull)] : gmap string json) !! "coordinates" = None
  /\ Scenario.run Scenario.clear_sky (Scenario.request [("crop_type", JNull)])
     = (error "'NoneType' object has no attribute 'lower'" 500, [])
  /\ status (Scenario.run Scenario.clear_sky
               (Scenario.request [("crop_type", JNull)])).1 <> 400.
Proof.
  split; [| split]; vm_compute; [reflexivity | reflexivity | discriminate].
Qed.

(** C9.  A [crop_type] that is present with the value null makes [lower]
    raise; the catch-all answers 500 with the message of the exception, and
    not the 400 "No crop type provided".  No remote call has been made. *)
Theorem null_crop_type_is_500
    (py_str : json -> string) (crop_ranges : gmap string json)
    (W : World) (request : Request) (d : gmap string json) :
  get_json request = inr (JObj d) ->
  d !! "crop_type" = Some JNull ->
  analyze_farm py_str crop_ranges W request
  = (error "'NoneType' object has no attribute 'lower'" 500, [])
  /\ analyze_farm py_str crop_ranges W request
     <> (error "No crop type provided" 400, []).
Proof.
  intros Hreq Hct.
  assert (Hrun : analyze_farm py_str crop_ranges W request
                 = (error "'NoneType' object has no attribute 'lower'" 500, []))
    by now run_handler.
  split; [exact Hrun |]. rewrite Hrun. intros Heq.
  apply (f_equal (fun rt => status rt.1)) in Heq. discriminate Heq.
Qed.

Lemma null_crop_type_is_500_witness :
  Scenario.run Scenario.clear_sky
    (Scenario.request [("coordinates", Scenario.square); ("crop_type", JNull)])
  = (error "'NoneType' object has no attribute 'lower'" 500, [])
  /\ Scenario.run Scenario.clear_sky
       (Scenario.request [("coordinates", Scenario.square); ("crop_type", JNull)])
     <> (error "No crop type provided" 400, []).
Proof.
  unfold Scenario.run.
  apply (null_crop_type_is_500 _ _ _ _
           (list_to_map [("coordinates", Scenario.square); ("crop_type", JNull)])).
  - reflexivity.
  - vm_compute; reflexivity.
Defined.

(** ** Failures of the imagery step *)

Ltac open_accepted H :=
  destruct H as ((?d & ?s & ?Hreq & ?Hcoords & ?Htruthy & ?Hcrop & -> & ?Hname)
                 & ?Hmin & ?Hmax & ?Hpolygon).

(** C4.  When the request is accepted and the collection has no scene, the
    response is the 404 "No Sentinel-2 images found for the given area/date
    range."; the only remote call made is the one for the collection size, so
    the weather service is never asked. *)
Theorem no_imagery_is_404
    (py_str : json -> string) (crop_ranges : gmap string json)
    (W : World) (request : Request) (coords : json) (crop_type : string)
    (ndvi_min ndvi_max : json) :
  accepted crop_ranges W request coords crop_type ndvi_min ndvi_max ->
  collection_size W coords = inr 0 ->
  analyze_farm py_str crop_ranges W request
  = (error "No Sentinel-2 images found for the given area/date range." 404,
     [EE_collection_size coords]).
Proof.
  intros Hacc Hsize. open_accepted Hacc. now run_handler.
Qed.

Ltac scenario_accepted :=
  split;
  [ exists (list_to_map [("coordinates", Scenario.square);
                         ("crop_type", JStr "Wheat")]), "Wheat";
    split; [reflexivity |]; split; [vm_compute; reflexivity |];
    split; [reflexivity |]; split; [vm_compute; reflexivity |];
    split; vm_compute; reflexivity
  | split; [vm_compute; reflexivity |]; split; vm_compute; reflexivity ].

Lemma no_imagery_is_404_witness :
  Scenario.run Scenario.no_scenes Scenario.wheat_request
  = (error "No Sentinel-2 images found for the given area/date range." 404,
     [EE_collection_size Scenario.square]).
Proof.
  apply (no_imagery_is_404 Scenario.str Scenario.ranges Scenario.no_scenes
           Scenario.wheat_request Scenario.square "wheat"
           (Scenario.decimal 3 1) (Scenario.decimal 7 1)).
  - scenario_accepted.
  - reflexivity.
Defined.

(** C5.  When the request is accepted, the collection is not empty and some
    required band is not among the bands of the composite, the response is a
    500 whose message is "Missing bands: <missing>. Available: <available>",
    where [missing] lists, in the order of [bands], exactly the required bands
    that are not available.  The only remote calls made are those for the
    collection size and the band names: neither the statistics nor the weather
    are requested. *)
Theorem missing_bands_is_500
    (py_str : json -> string) (crop_ranges : gmap string json)
    (W : World) (request : Request) (coords : json) (crop_type : string)
    (ndvi_min ndvi_max : json) (n : Z) (names : list string) :
  accepted crop_ranges W request coords crop_type ndvi_min ndvi_max ->
  collection_size W coords = inr n ->
  n <> 0 ->
  image_bandNames W coords = inr names ->
  (exists b, b ∈ bands /\ b ∉ names) ->
  let missing := filter (fun b => b ∉ names) bands in
  (forall b, b ∈ missing <-> b ∈ bands /\ b ∉ names)
  /\ analyze_farm py_str crop_ranges W request
     = (error ("Missing bands: " +:+ py_str (JArr (JStr <$> missing))
               +:+ ". Available: " +:+ py_str (JArr (JStr <$> names))) 500,
        [EE_collection_size coords; EE_bandNames coords]).
Proof.
  intros Hacc Hsize Hn Hnames (b & Hb & Hnb) missing. open_accepted Hacc.
  apply Z.eqb_neq in Hn.
  assert (Hspec : forall b', b' ∈ missing <-> b' ∈ bands /\ b' ∉ names)
    by (intros b'; unfold missing; rewrite list_elem_of_filter; tauto).
  split; [exact Hspec |].
  assert (Hin : b ∈ missing) by (apply Hspec; tauto).
  run_handler. fold missing.
  destruct missing as [| b0 rest]; [now apply elem_of_nil in Hin | reflexivity].
Qed.

Lemma missing_bands_is_500_witness :
  (forall b, b ∈ ["B11"] <-> b ∈ bands /\ b ∉ ["B2"; "B3"; "B4"; "B8"])
  /\ Scenario.run Scenario.no_swir Scenario.wheat_request
     = (error "Missing bands: ['B11']. Available: ['B2', 'B3', 'B4', 'B8']" 500,
        [EE_collection_size Scenario.square; EE_bandNames Scenario.square]).
Proof.
  apply (missing_bands_is_500 Scenario.str Scenario.ranges Scenario.no_swir
           Scenario.wheat_request Scenario.square "wheat"
           (Scenario.decimal 3 1) (Scenario.decimal 7 1) 3
           ["B2"; "B3"; "B4"; "B8"]).
  - scenario_accepted.
  - reflexivity.
  - lia.
  - reflexivity.
  - exists "B11". split; apply (bool_decide_unpack _); vm_compute; exact I.
Defined.

(** ** Crop names *)


(** ** Crops without a reference range *)




Ltac scenario_upstream :=
  exists 3, Scenario.all_bands, (Scenario.decimal 305 1), (Scenario.decimal 105 1),
         (list_to_map [("current", JObj Scenario.current)]);
  split; [reflexivity |]; split; [reflexivity |]; split; [reflexivity |];
  split; [vm_compute; reflexivity |]; split; [reflexivity |];
  split; [reflexivity |]; split; [reflexivity |]; vm_compute; reflexivity.


(** ** Weather *)

(** C10.  Missing weather data does not fail an evaluation.  If a request is
    answered with a 200, then with a weather service that answers any object
    whose [current] is absent or an object [cur], the same request is answered
    with a 200 after the same remote calls; the response differs only in its
    [weather], where [temperature] and [rain] fall back to 0 and [humidity]
    and [wind_speed] to null for the readings that [cur] lacks.  With no
    [current] at all the weather is
    [{temperature: 0, humidity: null, wind_speed: null, rain: 0}]. *)
Theorem missing_weather_defaults :
  (forall (py_str : json -> string) (crop_ranges : gmap string json)
          (W : World) (request : Request) (r : Response) (t : list call)
          (forecast cur : gmap string json),
      analyze_farm py_str crop_ranges W request = (r, t) ->
      status r = 200 ->
      default (JObj ∅) (forecast !! "current") = JObj cur ->
      exists out : gmap string json,
        body r = JObj out
        /\ analyze_farm py_str crop_ranges (with_forecast W (JObj forecast))
             request
           = ({| body := JObj (<["weather" := weather_of cur]> out);
                 status := 200 |}, t))
  /\ weather_of ∅
     = jsonify [("temperature", JNum (NInt 0)); ("humidity", JNull);
                ("wind_speed", JNull); ("rain", JNum (NInt 0))].
Proof.
  split; [| reflexivity].
  intros py_str crop_ranges W request r t forecast cur H Hs Hcur.
  unfold analyze_farm, analyze_farm_try in H. split_steps H Hs.
  cbn in H. injection H as <- <-. eexists. split; [reflexivity |].
  run_handler. unfold weather_of, jsonify. reflexivity.
Qed.

Lemma missing_weather_defaults_witness :
  status (Scenario.run Scenario.clear_sky Scenario.wheat_request).1 = 200
  /\ exists out : gmap string json,
       body (Scenario.run Scenario.clear_sky Scenario.wheat_request).1 = JObj out
       /\ Scenario.run (with_forecast Scenario.clear_sky (JObj ∅))
            Scenario.wheat_request
          = ({| body := JObj (<["weather" := weather_of ∅]> out);
                status := 200 |},
             (Scenario.run Scenario.clear_sky Scenario.wheat_request).2).
Proof.
  split; [vm_compute; reflexivity |].
  apply (proj1 missing_weather_defaults Scenario.str Scenario.ranges
           Scenario.clear_sky Scenario.wheat_request).
  - apply surjective_pairing.
  - vm_compute; reflexivity.
  - reflexivity.
Defined.

(** * Further properties of the handler *)

(** Execution of a hypothesis [H] about the handler with every step split in
    both outcomes. *)
Ltac split_all H :=
  unfold analyze_farm, analyze_farm_try in H;
  repeat first
    [ rewrite bind_lift in H
    | rewrite bind_remote in H
    | rewrite ret_run in H
    | match type of H with
      | context [match ?e with inl _ => _ | inr _ => _ end] => destruct e eqn:?
      | context [if ?b then _ else _] => destruct b eqn:?
      end ];
  cbn in H; injection H as <- <-.

(** ** Shape of the responses and of the log *)

(** X1.  A response is either a 200 whose body has exactly the keys indices,
    weather, crop_type, healthy_range and health_status, or a 400, 404 or 500
    whose body is [{"error": <message>}] and nothing else: never a mix. *)
Theorem response_shape
    (py_str : json -> string) (crop_ranges : gmap string json)
    (W : World) (request : Request) :
  let r := (analyze_farm py_str crop_ranges W request).1 in
  (status r = 200
   /\ exists out : gmap string json,
        body r = JObj out
        /\ dom out = list_to_set ["indices"; "weather"; "crop_type";
                                  "healthy_range"; "health_status"])
  \/ ((status r = 400 \/ status r = 404 \/ status r = 500)
      /\ exists msg : string, body r = jsonify [("error", JStr msg)]).
Proof.
  destruct (analyze_farm py_str crop_ranges W request) as [r t] eqn:H.
  cbv zeta. cbn [fst].
  split_all H;
    first
      [ right; split; [cbn; tauto | eexists; reflexivity]
      | left; split; [reflexivity |];
        eexists; split; [reflexivity | vm_compute; reflexivity] ].
Qed.

(** X2.  The remote calls of any evaluation are an initial part of the five
    calls of the pipeline, in that order and for one boundary: nothing is
    called twice or out of order.  A 200 has made all five, a 400 none, and a
    404 only the query for the collection size. *)
Theorem calls_follow_pipeline
    (py_str : json -> string) (crop_ranges : gmap string json)
    (W : World) (request : Request) :
  exists (coords : json) (url : string),
    let run := analyze_farm py_str crop_ranges W request in
    run.2 `prefix_of` pipeline_calls coords url
    /\ (status run.1 = 200 -> run.2 = pipeline_calls coords url)
    /\ (status run.1 = 400 -> run.2 = [])
    /\ (status run.1 = 404 -> run.2 = [EE_collection_size coords]).
Proof.
  destruct (analyze_farm py_str crop_ranges W request) as [r t] eqn:H.
  cbv zeta. cbn [fst snd].
  split_all H;
    first
      [ exists JNull, EmptyString; split; [eexists; reflexivity |];
        cbn; repeat split; intros Hst; first [discriminate Hst | reflexivity]
      | eexists _, EmptyString; split; [eexists; reflexivity |];
        cbn; repeat split; intros Hst; first [discriminate Hst | reflexivity]
      | eexists _, _; split; [eexists; reflexivity |];
        cbn; repeat split; intros Hst; first [discriminate Hst | reflexivity] ].
Qed.

(** ** What each status code tells *)

(** X3.  A 400 comes from the validation only: the body was an object,
    [crop_type] could be lower-cased, and the boundary was empty (message "No
    coordinates provided") or else the lower-cased crop name was empty
    (message "No crop type provided"); no remote call was made. *)
Theorem bad_request_only_from_validation
    (py_str : json -> string) (crop_ranges : gmap string json)
    (W : World) (request : Request) :
  status (analyze_farm py_str crop_ranges W request).1 = 400 ->
  exists (d : gmap string json) (crop_type : string),
    get_json request = inr (JObj d)
    /\ lower (default (JStr "") (d !! "crop_type")) = inr crop_type
    /\ ((truthy (default JNull (d !! "coordinates")) = false
         /\ analyze_farm py_str crop_ranges W request
            = (error "No coordinates provided" 400, []))
        \/ (truthy (default JNull (d !! "coordinates")) = true
            /\ crop_type = ""
            /\ analyze_farm py_str crop_ranges W request
               = (error "No crop type provided" 400, []))).
Proof.
  destruct (analyze_farm py_str crop_ranges W request) as [r t] eqn:H.
  cbn [fst]. intros Hst. split_all H; try discriminate Hst.
  - match goal with
    | Hd : get_json request = inr ?j, Hg : get ?j _ _ = inr _ |- _ =>
        destruct j; try discriminate Hg
    end.
    repeat match goal with Hg : get (JObj _) _ _ = inr _ |- _ =>
      cbn in Hg; injection Hg as <- end.
    eexists _, _. split; [reflexivity |]. split; [eassumption |].
    left. split; [| reflexivity].
    match goal with Hb : negb _ = true |- _ =>
      now apply negb_true_iff in Hb end.
  - match goal with
    | Hd : get_json request = inr ?j, Hg : get ?j _ _ = inr _ |- _ =>
        destruct j; try discriminate Hg
    end.
    repeat match goal with Hg : get (JObj _) _ _ = inr _ |- _ =>
      cbn in Hg; injection Hg as <- end.
    eexists _, _. split; [reflexivity |]. split; [eassumption |].
    right.
    repeat match goal with
      | Hb : negb _ = true |- _ => apply negb_true_iff in Hb
      | Hb : negb _ = false |- _ => apply negb_false_iff in Hb
      end.
    split; [assumption |]. split; [| reflexivity].
    match goal with Hb : truthy (JStr ?s) = false |- _ =>
      cbn in Hb; apply negb_false_iff, String.eqb_eq in Hb; exact Hb end.
Qed.

Lemma bad_request_only_from_validation_witness :
  exists (d : gmap string json) (crop_type : string),
    get_json (Scenario.request [("coordinates", Scenario.square)])
    = inr (JObj d)
    /\ lower (default (JStr "") (d !! "crop_type")) = inr crop_type
    /\ ((truthy (default JNull (d !! "coordinates")) = false
         /\ Scenario.run Scenario.clear_sky
              (Scenario.request [("coordinates", Scenario.square)])
            = (error "No coordinates provided" 400, []))
        \/ (truthy (default JNull (d !! "coordinates")) = true
            /\ crop_type = ""
            /\ Scenario.run Scenario.clear_sky
                 (Scenario.request [("coordinates", Scenario.square)])
               = (error "No crop type provided" 400, []))).
Proof.
  apply (bad_request_only_from_validation Scenario.str Scenario.ranges
           Scenario.clear_sky
           (Scenario.request [("coordinates", Scenario.square)])).
  vm_compute. reflexivity.
Defined.

(** X4.  A 404 is answered only when the collection-size query succeeded and
    reported zero scenes for a boundary that passed validation; it carries the
    fixed message, and that query is the only remote call made. *)
Theorem not_found_only_without_scenes
    (py_str : json -> string) (crop_ranges : gmap string json)
    (W : World) (request : Request) :
  status (analyze_farm py_str crop_ranges W request).1 = 404 ->
  exists coords : json,
    truthy coords = true
    /\ ee_Geometry_Polygon W coords = inr tt
    /\ collection_size W coords = inr 0
    /\ analyze_farm py_str crop_ranges W request
       = (error "No Sentinel-2 images found for the given area/date range." 404,
          [EE_collection_size coords]).
Proof.
  destruct (analyze_farm py_str crop_ranges W request) as [r t] eqn:H.
  cbn [fst]. intros Hst. split_all H; try discriminate Hst.
  eexists. split; [| split; [| split; [| reflexivity]]].
  - match goal with Hb : negb (truthy _) = false |- _ =>
      apply negb_false_iff in Hb; exact Hb end.
  - match goal with Hp : ee_Geometry_Polygon _ _ = inr ?u |- _ =>
      destruct u; exact Hp end.
  - match goal with Hz : (?z =? 0) = true |- _ =>
      apply Z.eqb_eq in Hz; subst z; assumption end.
Qed.

Lemma not_found_only_without_scenes_witness :
  exists coords : json,
    truthy coords = true
    /\ ee_Geometry_Polygon Scenario.no_scenes coords = inr tt
    /\ collection_size Scenario.no_scenes coords = inr 0
    /\ Scenario.run Scenario.no_scenes Scenario.wheat_request
       = (error "No Sentinel-2 images found for the given area/date range." 404,
          [EE_collection_size coords]).
Proof.
  apply (not_found_only_without_scenes Scenario.str Scenario.ranges
           Scenario.no_scenes Scenario.wheat_request).
  vm_compute. reflexivity.
Defined.

(** ** What a success reports *)

Ltac body_is_object :=
  repeat match goal with
    | Hg : get ?j _ _ = inr _ |- _ =>
        is_var j; destruct j; try discriminate Hg
    | Hg : get (JObj _) _ _ = inr _ |- _ => cbn in Hg; injection Hg as <-
    | Hb : negb _ = true |- _ => apply negb_true_iff in Hb
    | Hb : negb _ = false |- _ => apply negb_false_iff in Hb
    end.

(** X5.  A 200 echoes what was asked and found: its [crop_type] is the
    lower-cased crop name of the request, its [healthy_range] is made of the
    two bounds read from the table for that name, and its [health_status] is
    the classification of the rounded mean NDVI of the statistics against
    those bounds. *)
Theorem success_echoes_crop_and_range
    (py_str : json -> string) (crop_ranges : gmap string json)
    (W : World) (request : Request) :
  status (analyze_farm py_str crop_ranges W request).1 = 200 ->
  exists (d mean_stats out : gmap string json) (crop_type hs : string)
         (ndvi_min ndvi_max : json) (mean_ndvi : num),
    get_json request = inr (JObj d)
    /\ lower (default (JStr "") (d !! "crop_type")) = inr crop_type
    /\ range_bound crop_ranges crop_type "ndvi_min" = inr ndvi_min
    /\ range_bound crop_ranges crop_type "ndvi_max" = inr ndvi_max
    /\ reduceRegion_mean W (default JNull (d !! "coordinates")) = inr mean_stats
    /\ safe_val mean_stats "NDVI" = inr mean_ndvi
    /\ health_status crop_type mean_ndvi ndvi_min ndvi_max = inr hs
    /\ body (analyze_farm py_str crop_ranges W request).1 = JObj out
    /\ out !! "crop_type" = Some (JStr crop_type)
    /\ out !! "healthy_range"
       = Some (JStr (py_str ndvi_min +:+ " - " +:+ py_str ndvi_max))
    /\ out !! "health_status" = Some (JStr hs).
Proof.
  destruct (analyze_farm py_str crop_ranges W request) as [r t] eqn:H.
  cbn [fst]. intros Hst. split_all H; try discriminate Hst.
  body_is_object.
  eexists _, _, _, _, _, _, _, _.
  split; [reflexivity |]. repeat (split; [eassumption |]).
  split; [reflexivity |]. split; [| split]; vm_compute; reflexivity.
Qed.

Lemma success_echoes_crop_and_range_witness :
  exists (d mean_stats out : gmap string json) (crop_type hs : string)
         (ndvi_min ndvi_max : json) (mean_ndvi : num),
    get_json Scenario.wheat_request = inr (JObj d)
    /\ lower (default (JStr "") (d !! "crop_type")) = inr crop_type
    /\ range_bound Scenario.ranges crop_type "ndvi_min" = inr ndvi_min
    /\ range_bound Scenario.ranges crop_type "ndvi_max" = inr ndvi_max
    /\ reduceRegion_mean Scenario.clear_sky (default JNull (d !! "coordinates"))
       = inr mean_stats
    /\ safe_val mean_stats "NDVI" = inr mean_ndvi
    /\ health_status crop_type mean_ndvi ndvi_min ndvi_max = inr hs
    /\ body (Scenario.run Scenario.clear_sky Scenario.wheat_request).1 = JObj out
    /\ out !! "crop_type" = Some (JStr crop_type)
    /\ out !! "healthy_range"
       = Some (JStr (Scenario.str ndvi_min +:+ " - " +:+ Scenario.str ndvi_max))
    /\ out !! "health_status" = Some (JStr hs).
Proof.
  apply (success_echoes_crop_and_range Scenario.str Scenario.ranges
           Scenario.clear_sky Scenario.wheat_request).
  vm_compute. reflexivity.
Defined.

(** X6.  A 200 carries the weather of the centroid: the centroid query
    answered a pair [lon, lat], the weather request went to the URL built
    with that latitude and longitude (in this order), it answered an object,
    and the [weather] of the response holds the [current] readings of that
    object with the defaults for the missing ones. *)
Theorem success_weather_at_centroid
    (py_str : json -> string) (crop_ranges : gmap string json)
    (W : World) (request : Request) :
  status (analyze_farm py_str crop_ranges W request).1 = 200 ->
  exists (coords lon lat : json) (forecast cur out : gmap string json),
    centroid_coordinates W coords = inr [lon; lat]
    /\ requests_get_json W (weather_url py_str lat lon) = inr (JObj forecast)
    /\ default (JObj ∅) (forecast !! "current") = JObj cur
    /\ (analyze_farm py_str crop_ranges W request).2
       = pipeline_calls coords (weather_url py_str lat lon)
    /\ body (analyze_farm py_str crop_ranges W request).1 = JObj out
    /\ out !! "weather" = Some (weather_of cur).
Proof.
  destruct (analyze_farm py_str crop_ranges W request) as [r t] eqn:H.
  cbn [fst snd]. intros Hst. split_all H; try discriminate Hst.
  match goal with
  | Hu : unpack2 _ ?l = inr ?p |- _ =>
      destruct l as [| lon [| lat [| extra rest]]]; try discriminate Hu;
      cbn in Hu; injection Hu as <-
  end.
  cbn [fst snd] in *.
  match goal with
  | Hw : requests_get_json _ _ = inr ?j, Hg : get ?j "current" _ = inr ?c |- _ =>
      destruct j; try discriminate Hg; cbn in Hg; injection Hg as Hg;
      destruct c;
      try match goal with
        | Hc : get _ "temperature_2m" _ = inr _ |- _ => discriminate Hc
        end
  end.
  repeat match goal with
    | Hg : get (JObj _) _ _ = inr _ |- _ => cbn in Hg; injection Hg as <-
    end.
  eexists _, _, _, _, _, _.
  split; [eassumption |]. split; [eassumption |]. split; [eassumption |].
  split; [reflexivity |]. split; [reflexivity |].
  unfold weather_of. vm_compute. reflexivity.
Qed.

Lemma success_weather_at_centroid_witness :
  exists (coords lon lat : json) (forecast cur out : gmap string json),
    centroid_coordinates Scenario.clear_sky coords = inr [lon; lat]
    /\ requests_get_json Scenario.clear_sky (weather_url Scenario.str lat lon)
       = inr (JObj forecast)
    /\ default (JObj ∅) (forecast !! "current") = JObj cur
    /\ (Scenario.run Scenario.clear_sky Scenario.wheat_request).2
       = pipeline_calls coords (weather_url Scenario.str lat lon)
    /\ body (Scenario.run Scenario.clear_sky Scenario.wheat_request).1 = JObj out
    /\ out !! "weather" = Some (weather_of cur).
Proof.
  apply (success_weather_at_centroid Scenario.str Scenario.ranges
           Scenario.clear_sky Scenario.wheat_request).
  vm_compute. reflexivity.
Defined.

(** ** Failures that the handler does not name *)

(** X7.  An exception of a collaborator ends the evaluation at once: the
    response is a 500 that carries the message of the exception, and the log
    ends with the call that failed (it is empty when the polygon constructor
    fails).  This holds at each of the six places where a collaborator is
    used. *)
Theorem upstream_exceptions_become_500
    (py_str : json -> string) (crop_ranges : gmap string json)
    (W : World) (request : Request) (coords : json) (crop_type : string)
    (ndvi_min ndvi_max : json) (e : string) :
  valid_request request coords crop_type ->
  range_bound crop_ranges crop_type "ndvi_min" = inr ndvi_min ->
  range_bound crop_ranges crop_type "ndvi_max" = inr ndvi_max ->
  (ee_Geometry_Polygon W coords = inl e ->
   analyze_farm py_str crop_ranges W request = (error e 500, []))
  /\ (ee_Geometry_Polygon W coords = inr tt ->
      (collection_size W coords = inl e ->
       analyze_farm py_str crop_ranges W request
       = (error e 500, [EE_collection_size coords]))
      /\ forall n : Z,
           collection_size W coords = inr n -> n <> 0 ->
           (image_bandNames W coords = inl e ->
            analyze_farm py_str crop_ranges W request
            = (error e 500, [EE_collection_size coords; EE_bandNames coords]))
           /\ forall names : list string,
                image_bandNames W coords = inr names ->
                filter (fun b => b ∉ names) bands = [] ->
                (reduceRegion_mean W coords = inl e ->
                 analyze_farm py_str crop_ranges W request
                 = (error e 500,
                    [EE_collection_size coords; EE_bandNames coords;
                     EE_reduceRegion coords]))
                /\ forall mean_stats : gmap string json,
                     reduceRegion_mean W coords = inr mean_stats ->
                     (centroid_coordinates W coords = inl e ->
                      analyze_farm py_str crop_ranges W request
                      = (error e 500,
                         [EE_collection_size coords; EE_bandNames coords;
                          EE_reduceRegion coords; EE_centroid coords]))
                     /\ forall lon lat : json,
                          centroid_coordinates W coords = inr [lon; lat] ->
                          requests_get_json W (weather_url py_str lat lon)
                          = inl e ->
                          analyze_farm py_str crop_ranges W request
                          = (error e 500,
                             pipeline_calls coords
                               (weather_url py_str lat lon))).
Proof.
  intros (d & s & Hreq & Hcoords & Htruthy & Hcrop & -> & Hname) Hmin Hmax.
  split; [intros Hpolygon; now run_handler |].
  intros Hpolygon. split; [intros Hsize; now run_handler |].
  intros n Hsize Hn. apply Z.eqb_neq in Hn.
  split; [intros Hnames; now run_handler |].
  intros names Hnames Hbands. split; [intros Hstats; now run_handler |].
  intros mean_stats Hstats. split; [intros Hcentroid; now run_handler |].
  intros lon lat Hcentroid Hweather. now run_handler.
Qed.

Ltac scenario_valid :=
  exists (list_to_map [("coordinates", Scenario.square);
                       ("crop_type", JStr "Wheat")]), "Wheat";
  split; [reflexivity |]; split; [vm_compute; reflexivity |];
  split; [reflexivity |]; split; [vm_compute; reflexivity |];
  split; vm_compute; reflexivity.

Lemma upstream_exceptions_become_500_witness :
  Scenario.run Faults.bad_polygon Scenario.wheat_request
  = (error "Invalid GeoJSON geometry." 500, [])
  /\ Scenario.run Faults.weather_down Scenario.wheat_request
     = (error "Connection refused" 500,
        pipeline_calls Scenario.square
          (weather_url Scenario.str (Scenario.decimal 105 1)
             (Scenario.decimal 305 1))).
Proof.
  split.
  - refine (proj1 (upstream_exceptions_become_500 Scenario.str Scenario.ranges
                     Faults.bad_polygon Scenario.wheat_request Scenario.square
                     "wheat" (Scenario.decimal 3 1) (Scenario.decimal 7 1)
                     "Invalid GeoJSON geometry." _ _ _) _).
    + scenario_valid.
    + vm_compute; reflexivity.
    + vm_compute; reflexivity.
    + reflexivity.
  - assert (Hvalid : valid_request Scenario.wheat_request Scenario.square "wheat")
      by scenario_valid.
    assert (Hmin : range_bound Scenario.ranges "wheat" "ndvi_min"
                   = inr (Scenario.decimal 3 1)) by (vm_compute; reflexivity).
    assert (Hmax : range_bound Scenario.ranges "wheat" "ndvi_max"
                   = inr (Scenario.decimal 7 1)) by (vm_compute; reflexivity).
    destruct (upstream_exceptions_become_500 Scenario.str Scenario.ranges
                Faults.weather_down Scenario.wheat_request Scenario.square
                "wheat" _ _ "Connection refused" Hvalid Hmin Hmax)
      as (_ & Hrest).
    destruct (Hrest eq_refl) as (_ & Hsize).
    destruct (Hsize 3 eq_refl ltac:(lia)) as (_ & Hnames).
    destruct (Hnames Scenario.all_bands eq_refl
                ltac:(vm_compute; reflexivity)) as (_ & Hstats).
    destruct (Hstats Scenario.stats eq_refl) as (_ & Hcentroid).
    apply (Hcentroid (Scenario.decimal 305 1) (Scenario.decimal 105 1));
      reflexivity.
Defined.

(** X8.  A body that cannot be read fails before any remote call, with a
    500: when [get_json] raises, the message of that exception; when the body
    is not an object, or [crop_type] is present and not a string (a number, a
    list, null, ...), the message of the [AttributeError] for [get] or
    [lower].  This holds whatever [coordinates] is. *)
Theorem unreadable_body_is_500
    (py_str : json -> string) (crop_ranges : gmap string json)
    (W : World) (request : Request) :
  (forall e, get_json request = inl e ->
     analyze_farm py_str crop_ranges W request = (error e 500, []))
  /\ (forall data, get_json request = inr data ->
        (forall d, data <> JObj d) ->
        analyze_farm py_str crop_ranges W request
        = (error ("'" +:+ type_name data +:+ "' object has no attribute 'get'")
             500, []))
  /\ (forall d v, get_json request = inr (JObj d) ->
        d !! "crop_type" = Some v ->
        (forall s, v <> JStr s) ->
        analyze_farm py_str crop_ranges W request
        = (error ("'" +:+ type_name v +:+ "' object has no attribute 'lower'")
             500, [])).
Proof.
  split; [| split].
  - intros e Hreq. now run_handler.
  - intros data Hreq Hobj. unfold analyze_farm, analyze_farm_try.
    rewrite bind_lift, Hreq, bind_lift.
    destruct data; try reflexivity. now destruct (Hobj m).
  - intros d v Hreq Hcrop Hstr. run_handler.
    destruct v; try reflexivity. now destruct (Hstr s).
Qed.

Lemma unreadable_body_is_500_witness :
  Scenario.run Scenario.clear_sky
    {| get_json := inl "415 Unsupported Media Type" |}
  = (error "415 Unsupported Media Type" 500, [])
  /\ Scenario.run Scenario.clear_sky {| get_json := inr (JArr []) |}
     = (error "'list' object has no attribute 'get'" 500, [])
  /\ Scenario.run Scenario.clear_sky
       (Scenario.request [("coordinates", Scenario.square);
                          ("crop_type", JNum (NInt 7))])
     = (error "'int' object has no attribute 'lower'" 500, []).
Proof.
  split; [| split].
  - apply (proj1 (unreadable_body_is_500 Scenario.str Scenario.ranges
                    Scenario.clear_sky _)).
    reflexivity.
  - apply (proj1 (proj2 (unreadable_body_is_500 Scenario.str Scenario.ranges
                           Scenario.clear_sky _)) (JArr [])).
    + reflexivity.
    + discriminate.
  - apply (proj2 (proj2 (unreadable_body_is_500 Scenario.str Scenario.ranges
                           Scenario.clear_sky _))
             (list_to_map [("coordinates", Scenario.square);
                           ("crop_type", JNum (NInt 7))]) (JNum (NInt 7))).
    + reflexivity.
    + vm_compute; reflexivity.
    + discriminate.
Defined.

(** X9.  Only two fields of the body are read: two bodies with the same
    [coordinates] and the same [crop_type] get the same response after the
    same remote calls, whatever else they contain. *)
Theorem other_fields_are_ignored
    (py_str : json -> string) (crop_ranges : gmap string json)
    (W : World) (d d' : gmap string json) :
  d !! "coordinates" = d' !! "coordinates" ->
  d !! "crop_type" = d' !! "crop_type" ->
  analyze_farm py_str crop_ranges W {| get_json := inr (JObj d) |}
  = analyze_farm py_str crop_ranges W {| get_json := inr (JObj d') |}.
Proof.
  intros Hcoords Hcrop. unfold analyze_farm, analyze_farm_try.
  repeat (rewrite bind_lift; cbn [get_json get]).
  now rewrite Hcoords, Hcrop.
Qed.

Lemma other_fields_are_ignored_witness :
  Scenario.run Scenario.clear_sky Scenario.wheat_request
  = Scenario.run Scenario.clear_sky
      (Scenario.request [("coordinates", Scenario.square);
                         ("crop_type", JStr "Wheat");
                         ("farm_name", JStr "North field");
                         ("area", JNum (NInt 12))]).
Proof.
  apply (other_fields_are_ignored Scenario.str Scenario.ranges Scenario.clear_sky
           (list_to_map [("coordinates", Scenario.square);
                         ("crop_type", JStr "Wheat")])
           (list_to_map [("coordinates", Scenario.square);
                         ("crop_type", JStr "Wheat");
                         ("farm_name", JStr "North field");
                         ("area", JNum (NInt 12))]));
    vm_compute; reflexivity.
Defined.

(** X10.  A table entry that is not an object (a number, a list, null, ...)
    makes every valid request for that crop fail with the 500 of the
    [AttributeError] for [get], before any remote call. *)
Theorem malformed_entry_is_500
    (py_str : json -> string) (crop_ranges : gmap string json)
    (W : World) (request : Request) (coords : json) (crop_type : string)
    (entry : json) :
  valid_request request coords crop_type ->
  crop_ranges !! crop_type = Some entry ->
  (forall m, entry <> JObj m) ->
  analyze_farm py_str crop_ranges W request
  = (error ("'" +:+ type_name entry +:+ "' object has no attribute 'get'") 500,
     []).
Proof.
  intros (d & s & Hreq & Hcoords & Htruthy & Hcrop & -> & Hname) Hentry Hobj.
  assert (Hmin : range_bound crop_ranges (str_lower s) "ndvi_min"
                 = inl ("'" +:+ type_name entry
                        +:+ "' object has no attribute 'get'")).
  { unfold range_bound. cbn. rewrite Hentry. cbn.
    destruct entry; try reflexivity. now destruct (Hobj m). }
  now run_handler.
Qed.

Lemma malformed_entry_is_500_witness :
  analyze_farm Scenario.str Faults.number_entry Scenario.clear_sky
    Scenario.wheat_request
  = (error "'int' object has no attribute 'get'" 500, []).
Proof.
  apply (malformed_entry_is_500 Scenario.str Faults.number_entry
           Scenario.clear_sky Scenario.wheat_request Scenario.square "wheat"
           (JNum (NInt 5))).
  - scenario_valid.
  - vm_compute; reflexivity.
  - discriminate.
Defined.

(** ** The weather answer and the statistics *)

(** The goal runs the handler; every step that the context does not settle is
    split in both outcomes. *)
Ltac split_rest :=
  repeat first
    [ rewrite bind_lift
    | rewrite bind_remote
    | rewrite ret_run
    | match goal with
      | |- context [match ?e with inl _ => _ | inr _ => _ end] => destruct e eqn:?
      end ].

(** X11.  A weather answer of the wrong shape fails the evaluation after all
    five remote calls, with the 500 of the [AttributeError] for [get]: when
    the answer is not an object, and when its [current] is present but not an
    object (null, a list, ...).  So a null [current] is not treated like a
    missing one. *)
Theorem malformed_weather_is_500
    (py_str : json -> string) (crop_ranges : gmap string json)
    (W : World) (request : Request) (coords : json) (crop_type : string)
    (ndvi_min ndvi_max : json) (n : Z) (names : list string)
    (mean_stats : gmap string json) (lon lat answer : json) :
  accepted crop_ranges W request coords crop_type ndvi_min ndvi_max ->
  collection_size W coords = inr n ->
  n <> 0 ->
  image_bandNames W coords = inr names ->
  filter (fun b => b ∉ names) bands = [] ->
  reduceRegion_mean W coords = inr mean_stats ->
  centroid_coordinates W coords = inr [lon; lat] ->
  requests_get_json W (weather_url py_str lat lon) = inr answer ->
  ((forall forecast, answer <> JObj forecast) ->
   analyze_farm py_str crop_ranges W request
   = (error ("'" +:+ type_name answer +:+ "' object has no attribute 'get'") 500,
      pipeline_calls coords (weather_url py_str lat lon)))
  /\ (forall (forecast : gmap string json) (current : json),
        answer = JObj forecast ->
        forecast !! "current" = Some current ->
        (forall cur, current <> JObj cur) ->
        analyze_farm py_str crop_ranges W request
        = (error ("'" +:+ type_name current
                  +:+ "' object has no attribute 'get'") 500,
           pipeline_calls coords (weather_url py_str lat lon))).
Proof.
  intros Hacc Hsize Hn Hnames Hbands Hstats Hcentroid Hweather.
  open_accepted Hacc. apply Z.eqb_neq in Hn. split.
  - intros Hobj. run_handler.
    destruct answer; try reflexivity. now destruct (Hobj m).
  - intros forecast current -> Hcurrent Hobj. run_handler.
    destruct current; try reflexivity. now destruct (Hobj m).
Qed.

Lemma malformed_weather_is_500_witness :
  Scenario.run Faults.null_current Scenario.wheat_request
  = (error "'NoneType' object has no attribute 'get'" 500,
     pipeline_calls Scenario.square
       (weather_url Scenario.str (Scenario.decimal 105 1)
          (Scenario.decimal 305 1))).
Proof.
  refine (proj2 (malformed_weather_is_500 Scenario.str Scenario.ranges
                   Faults.null_current Scenario.wheat_request Scenario.square
                   "wheat" (Scenario.decimal 3 1) (Scenario.decimal 7 1) 3
                   Scenario.all_bands Scenario.stats (Scenario.decimal 305 1)
                   (Scenario.decimal 105 1) (jsonify [("current", JNull)])
                   _ _ _ _ _ _ _ _)
            (list_to_map [("current", JNull)]) JNull _ _ _).
  - scenario_accepted.
  - reflexivity.
  - lia.
  - reflexivity.
  - vm_compute; reflexivity.
  - reflexivity.
  - reflexivity.
  - reflexivity.
  - reflexivity.
  - vm_compute; reflexivity.
  - discriminate.
Defined.

(** X12.  One statistic that cannot be rounded (a text, a list, ...) fails
    the whole evaluation: if [safe_val] raises for any of the seven bands and
    indices, the response is a 500 and never a partial result.  The failure
    shows only after all five remote calls, the weather request included. *)
Theorem unroundable_statistic_is_500
    (py_str : json -> string) (crop_ranges : gmap string json)
    (W : World) (request : Request) (coords : json) (crop_type : string)
    (ndvi_min ndvi_max : json) (mean_stats cur : gmap string json)
    (key name e : string) :
  accepted crop_ranges W request coords crop_type ndvi_min ndvi_max ->
  upstream_ok py_str W coords mean_stats cur ->
  (key, name) ∈ index_sources ->
  safe_val mean_stats name = inl e ->
  exists (msg url : string),
    analyze_farm py_str crop_ranges W request
    = (error msg 500, pipeline_calls coords url).
Proof.
  intros Hacc Hup Hin Hfail. open_accepted Hacc.
  destruct Hup as (n & names & lon & lat & forecast & Hsize & Hn & Hnames
                   & Hbands & Hstats & Hcentroid & Hweather & Hcur).
  run_handler. split_rest; try (eexists _, _; reflexivity).
  exfalso. unfold index_sources in Hin.
  repeat (apply elem_of_cons in Hin as [Hin | Hin];
          [injection Hin as -> ->; congruence |]).
  now apply elem_of_nil in Hin.
Qed.

Lemma unroundable_statistic_is_500_witness :
  exists (msg url : string),
    Scenario.run Faults.text_evi Scenario.wheat_request
    = (error msg 500, pipeline_calls Scenario.square url).
Proof.
  apply (unroundable_statistic_is_500 Scenario.str Scenario.ranges
           Faults.text_evi Scenario.wheat_request Scenario.square "wheat"
           (Scenario.decimal 3 1) (Scenario.decimal 7 1)
           (<["EVI" := JStr "n/a"]> Scenario.stats) Scenario.current
           "EVI" "EVI" "type str doesn't define __round__ method").
  - scenario_accepted.
  - scenario_upstream.
  - apply (bool_decide_unpack _); vm_compute; exact I.
  - vm_compute; reflexivity.
Defined.

(** X13.  A region without a valid pixel is not an error: when the NDVI
    statistic is missing or null, the other six can be rounded, and the lower
    bound of the crop is a positive number, the response is a 200 that
    reports an NDVI of [0.0] and the "stress" status. *)
Theorem no_pixels_reported_as_stress
    (py_str : json -> string) (crop_ranges : gmap string json)
    (W : World) (request : Request) (coords : json) (crop_type : string)
    (ndvi_min : num) (ndvi_max : json) (mean_stats cur : gmap string json) :
  accepted crop_ranges W request coords crop_type (JNum ndvi_min) ndvi_max ->
  upstream_ok py_str W coords mean_stats cur ->
  ext_lt (EFin 0) (num_val ndvi_min) = true ->
  (mean_stats !! "NDVI" = None \/ mean_stats !! "NDVI" = Some JNull) ->
  (forall key name, (key, name) ∈ index_sources ->
     exists v, safe_val mean_stats name = inr v) ->
  exists out idx : gmap string json,
    (analyze_farm py_str crop_ranges W request).1
    = {| body := JObj out; status := 200 |}
    /\ out !! "health_status"
       = Some (JStr (capitalize crop_type +:+
            " shows stress or poor vegetation (Unhealthy). OR maybe bare soil."))
    /\ out !! "indices" = Some (JObj idx)
    /\ idx !! "NDVI" = Some (JNum (NFloat (S754_zero false))).
Proof.
  intros Hacc Hup Hpos Hndvi Hothers. open_accepted Hacc.
  destruct Hup as (n & names & lon & lat & forecast & Hsize & Hn & Hnames
                   & Hbands & Hstats & Hcentroid & Hweather & Hcur).
  assert (Hzero : safe_val mean_stats "NDVI" = inr (NFloat (S754_zero false)))
    by (unfold safe_val; destruct Hndvi as [-> | ->]; reflexivity).
  assert (Hhs : health_status (str_lower s) (NFloat (S754_zero false))
                  (JNum ndvi_min) ndvi_max
                = inr (capitalize (str_lower s) +:+
            " shows stress or poor vegetation (Unhealthy). OR maybe bare soil.")).
  { unfold health_status, lt, compare_op. cbn. cbn in Hpos. now rewrite Hpos. }
  destruct (Hothers "EVI" "EVI") as [v1 H1];
    [apply (bool_decide_unpack _); vm_compute; exact I |].
  destruct (Hothers "NDWI" "NDWI") as [v2 H2];
    [apply (bool_decide_unpack _); vm_compute; exact I |].
  destruct (Hothers "MSI" "MSI") as [v3 H3];
    [apply (bool_decide_unpack _); vm_compute; exact I |].
  destruct (Hothers "GREEN" "B3") as [v4 H4];
    [apply (bool_decide_unpack _); vm_compute; exact I |].
  destruct (Hothers "RED" "B4") as [v5 H5];
    [apply (bool_decide_unpack _); vm_compute; exact I |].
  destruct (Hothers "NIR" "B8") as [v6 H6];
    [apply (bool_decide_unpack _); vm_compute; exact I |].
  run_handler. cbn [fst]. eexists _, _. split; [reflexivity |].
  split; [| split]; vm_compute; reflexivity.
Qed.

Lemma no_pixels_reported_as_stress_witness :
  exists out idx : gmap string json,
    (Scenario.run Faults.no_pixels Scenario.wheat_request).1
    = {| body := JObj out; status := 200 |}
    /\ out !! "health_status"
       = Some (JStr
            "Wheat shows stress or poor vegetation (Unhealthy). OR maybe bare soil.")
    /\ out !! "indices" = Some (JObj idx)
    /\ idx !! "NDVI" = Some (JNum (NFloat (S754_zero false))).
Proof.
  apply (no_pixels_reported_as_stress Scenario.str Scenario.ranges
           Faults.no_pixels Scenario.wheat_request Scenario.square "wheat"
           (NFloat (float_of_decimal false 3 1)) (Scenario.decimal 7 1)
           (list_to_map [("NDVI", JNull); ("EVI", JNull); ("NDWI", JNull);
                         ("MSI", JNull); ("B3", JNull); ("B4", JNull);
                         ("B8", JNull)]) Scenario.current).
  - scenario_accepted.
  - scenario_upstream.
  - vm_compute; reflexivity.
  - right. vm_compute; reflexivity.
  - intros key name Hin. exists (NFloat (S754_zero false)).
    unfold index_sources in Hin.
    repeat (apply elem_of_cons in Hin as [Hin | Hin];
            [injection Hin as -> ->; vm_compute; reflexivity |]).
    now apply elem_of_nil in Hin.
Defined.

(** ** Classification beyond the well-formed range *)

(** X14.  With two numeric bounds the classification never raises and gives
    one of the three messages.  When the bounds are inverted
    ([ndvi_max < ndvi_min]) no mean is ever "healthy": it is "stress" below
    [ndvi_min] and "excess greenness" otherwise.  A NaN mean is "excess
    greenness" whatever the bounds. *)
Theorem health_status_numeric_bounds
    (crop_type : string) (mean_ndvi ndvi_min ndvi_max : num) :
  let run := health_status crop_type mean_ndvi (JNum ndvi_min) (JNum ndvi_max) in
  let stress :=
    capitalize crop_type
    +:+ " shows stress or poor vegetation (Unhealthy). OR maybe bare soil." in
  let excess := "Excess greenness detected (possibly weeds or dense canopy)." in
  (run = inr stress
   \/ run = inr (capitalize crop_type +:+ " crop appears Healthy.")
   \/ run = inr excess)
  /\ (ext_lt (num_val ndvi_max) (num_val ndvi_min) = true ->
      run = inr (if ext_lt (num_val mean_ndvi) (num_val ndvi_min)
                 then stress else excess))
  /\ (num_val mean_ndvi = ENaN -> run = inr excess).
Proof.
  cbv zeta. unfold health_status, lt, le, compare_op. cbn.
  split; [| split].
  - destruct (ext_lt (num_val mean_ndvi) (num_val ndvi_min)); cbn; [tauto |].
    destruct (ext_le (num_val ndvi_min) (num_val mean_ndvi)); cbn; [| tauto].
    destruct (ext_le (num_val mean_ndvi) (num_val ndvi_max)); cbn; tauto.
  - intros Hinv.
    destruct (ext_lt (num_val mean_ndvi) (num_val ndvi_min)) eqn:Hlt; cbn;
      [reflexivity |].
    destruct (ext_le (num_val ndvi_min) (num_val mean_ndvi)) eqn:Hmin; cbn;
      [| reflexivity].
    destruct (ext_le (num_val mean_ndvi) (num_val ndvi_max)) eqn:Hmax; cbn;
      [| reflexivity].
    exfalso. revert Hinv Hmin Hmax.
    generalize (num_val mean_ndvi) (num_val ndvi_min) (num_val ndvi_max).
    clear. ext_order.
  - intros ->. cbn. now destruct (num_val ndvi_min).
Qed.

Lemma health_status_numeric_bounds_witness :
  health_status "wheat" (NFloat (float_of_decimal false 5 1))
    (JNum (NFloat (float_of_decimal false 8 1)))
    (JNum (NFloat (float_of_decimal false 2 1)))
  = inr "Wheat shows stress or poor vegetation (Unhealthy). OR maybe bare soil."
  /\ health_status "wheat" (NFloat S754_nan)
       (JNum (NFloat (float_of_decimal false 2 1)))
       (JNum (NFloat (float_of_decimal false 8 1)))
     = inr "Excess greenness detected (possibly weeds or dense canopy).".
Proof.
  split.
  - rewrite (proj1 (proj2 (health_status_numeric_bounds "wheat"
                             (NFloat (float_of_decimal false 5 1))
                             (NFloat (float_of_decimal false 8 1))
                             (NFloat (float_of_decimal false 2 1)))));
      vm_compute; reflexivity.
  - apply (proj2 (proj2 (health_status_numeric_bounds "wheat" (NFloat S754_nan)
                           (NFloat (float_of_decimal false 2 1))
                           (NFloat (float_of_decimal false 8 1))))).
    reflexivity.
Defined.

(** X15.  A table entry with a lower bound and no upper bound works for some
    fields only: a mean below [ndvi_min] is classified as "stress", the upper
    bound never being looked at, while for any mean at or above [ndvi_min] the
    comparison with the missing bound raises and the response is the 500 of
    that [TypeError]. *)
Theorem missing_upper_bound
    (py_str : json -> string) (crop_ranges : gmap string json)
    (W : World) (request : Request) (coords : json) (crop_type : string)
    (ndvi_min mean_ndvi : num) (mean_stats cur : gmap string json) :
  accepted crop_ranges W request coords crop_type (JNum ndvi_min) JNull ->
  upstream_ok py_str W coords mean_stats cur ->
  safe_val mean_stats "NDVI" = inr mean_ndvi ->
  (ext_lt (num_val mean_ndvi) (num_val ndvi_min) = true ->
   health_status crop_type mean_ndvi (JNum ndvi_min) JNull
   = inr (capitalize crop_type +:+
          " shows stress or poor vegetation (Unhealthy). OR maybe bare soil."))
  /\ (ext_le (num_val ndvi_min) (num_val mean_ndvi) = true ->
      (analyze_farm py_str crop_ranges W request).1
      = error ("'<=' not supported between instances of '"
               +:+ type_name (JNum mean_ndvi) +:+ "' and 'NoneType'") 500).
Proof.
  intros Hacc Hup Hndvi. split.
  - intros Hlt. unfold health_status, lt, compare_op. cbn. now rewrite Hlt.
  - intros Hle. open_accepted Hacc.
    destruct Hup as (n & names & lon & lat & forecast & Hsize & Hn & Hnames
                     & Hbands & Hstats & Hcentroid & Hweather & Hcur).
    assert (Hhs : health_status (str_lower s) mean_ndvi (JNum ndvi_min) JNull
                  = inl ("'<=' not supported between instances of '"
                         +:+ type_name (JNum mean_ndvi)
                         +:+ "' and 'NoneType'")).
    { unfold health_status, lt, le, compare_op. cbn.
      rewrite (ext_le_lt_false _ _ Hle), Hle. reflexivity. }
    now run_handler.
Qed.

Lemma missing_upper_bound_witness :
  (analyze_farm Scenario.str Faults.min_only Scenario.clear_sky
     Scenario.wheat_request).1
  = error "'<=' not supported between instances of 'float' and 'NoneType'" 500.
Proof.
  refine (proj2 (missing_upper_bound Scenario.str Faults.min_only
                   Scenario.clear_sky Scenario.wheat_request Scenario.square
                   "wheat" (NFloat (float_of_decimal false 3 1))
                   (NFloat (float_of_decimal false 55 2))
                   Scenario.stats Scenario.current _ _ _) _).
  - split;
      [ exists (list_to_map [("coordinates", Scenario.square);
                             ("crop_type", JStr "Wheat")]), "Wheat";
        split; [reflexivity |]; split; [vm_compute; reflexivity |];
        split; [reflexivity |]; split; [vm_compute; reflexivity |];
        split; vm_compute; reflexivity
      | split; [vm_compute; reflexivity |]; split; vm_compute; reflexivity ].
  - scenario_upstream.
  - vm_compute; reflexivity.
  - vm_compute; reflexivity.
Defined.

(** ** Validation, seen from the request *)

Lemma str_lower_empty (s : string) : str_lower s = "" -> s = "".
Proof. destruct s; [reflexivity | discriminate]. Qed.

Ltac split_rest_all :=
  repeat first
    [ rewrite bind_lift
    | rewrite bind_remote
    | rewrite ret_run
    | match goal with
      | |- context [match ?e with inl _ => _ | inr _ => _ end] => destruct e eqn:?
      | |- context [if ?b then _ else _] => destruct b eqn:?
      end ].

(** X16.  Lower-casing never empties a crop name, so a body with a non-empty
    boundary and a non-empty crop name is never answered with a 400, whatever
    the name is and whatever happens later. *)
Theorem named_crop_is_not_rejected
    (py_str : json -> string) (crop_ranges : gmap string json)
    (W : World) (request : Request) (d : gmap string json) (s : string) :
  get_json request = inr (JObj d) ->
  truthy (default JNull (d !! "coordinates")) = true ->
  d !! "crop_type" = Some (JStr s) ->
  s <> "" ->
  status (analyze_farm py_str crop_ranges W request).1 <> 400.
Proof.
  intros Hreq Hcoords Hcrop Hs.
  assert (Hname : truthy (JStr (str_lower s)) = true).
  { cbn. apply negb_true_iff, String.eqb_neq. intros Hlow.
    now apply Hs, str_lower_empty. }
  run_handler. split_rest_all; cbn; discriminate.
Qed.

Lemma named_crop_is_not_rejected_witness :
  status (Scenario.run Scenario.clear_sky Scenario.rice_request).1 <> 400.
Proof.
  apply (named_crop_is_not_rejected Scenario.str Scenario.ranges
           Scenario.clear_sky Scenario.rice_request
           (list_to_map [("coordinates", Scenario.square);
                         ("crop_type", JStr "Rice")]) "Rice").
  - reflexivity.
  - vm_compute; reflexivity.
  - vm_compute; reflexivity.
  - discriminate.
Defined.

(** ** The band check *)

(** X17.  The band check is about membership only: when each of B2, B3, B4,
    B8 and B11 occurs among the band names, in any order and among any other
    names, no "Missing bands" response is given and the statistics are
    requested next. *)
Theorem all_bands_present_goes_on
    (py_str : json -> string) (crop_ranges : gmap string json)
    (W : World) (request : Request) (coords : json) (crop_type : string)
    (ndvi_min ndvi_max : json) (n : Z) (names : list string) :
  accepted crop_ranges W request coords crop_type ndvi_min ndvi_max ->
  collection_size W coords = inr n ->
  n <> 0 ->
  image_bandNames W coords = inr names ->
  (forall b, b ∈ bands -> b ∈ names) ->
  exists rest : list call,
    (analyze_farm py_str crop_ranges W request).2
    = [EE_collection_size coords; EE_bandNames coords; EE_reduceRegion coords]
      ++ rest.
Proof.
  intros Hacc Hsize Hn Hnames Hall. open_accepted Hacc.
  apply Z.eqb_neq in Hn.
  assert (Hbands : filter (fun b => b ∉ names) bands = []).
  { destruct (filter (fun b => b ∉ names) bands) as [| b rest] eqn:Hf;
      [reflexivity |].
    assert (Hb : b ∈ filter (fun b => b ∉ names) bands)
      by (rewrite Hf; apply elem_of_cons; now left).
    apply list_elem_of_filter in Hb as [Hnot Hin]. now destruct (Hnot (Hall b Hin)). }
  run_handler. split_rest_all; cbn; eexists; reflexivity.
Qed.

Lemma all_bands_present_goes_on_witness :
  exists rest : list call,
    (analyze_farm Scenario.str Scenario.ranges
       (Scenario.world 3 ["B12"; "B11"; "B8"; "B4"; "B3"; "B2"; "B1"]
          Scenario.weather)
       Scenario.wheat_request).2
    = [EE_collection_size Scenario.square; EE_bandNames Scenario.square;
       EE_reduceRegion Scenario.square] ++ rest.
Proof.
  apply (all_bands_present_goes_on Scenario.str Scenario.ranges
           (Scenario.world 3 ["B12"; "B11"; "B8"; "B4"; "B3"; "B2"; "B1"]
              Scenario.weather)
           Scenario.wheat_request Scenario.square "wheat"
           (Scenario.decimal 3 1) (Scenario.decimal 7 1) 3
           ["B12"; "B11"; "B8"; "B4"; "B3"; "B2"; "B1"]).
  - scenario_accepted.
  - reflexivity.
  - lia.
  - reflexivity.
  - intros b Hb. unfold bands in Hb.
    repeat (apply elem_of_cons in Hb as [-> | Hb];
            [apply (bool_decide_unpack _); vm_compute; exact I |]).
    now apply elem_of_nil in Hb.
Defined.

(** ** The complete evaluation *)

(** X18.  When the request is accepted, the collaborators deliver, the seven
    statistics can be rounded and the classification does not raise, the
    response is the 200 assembled from exactly these values, after the five
    remote calls of the pipeline. *)
Theorem success_when_all_steps_succeed
    (py_str : json -> string) (crop_ranges : gmap string json)
    (W : World) (request : Request) (coords : json) (crop_type hs : string)
    (ndvi_min ndvi_max : json) (mean_stats cur : gmap string json)
    (ndvi evi ndwi msi green red nir : num) :
  accepted crop_ranges W request coords crop_type ndvi_min ndvi_max ->
  upstream_ok py_str W coords mean_stats cur ->
  safe_val mean_stats "NDVI" = inr ndvi ->
  safe_val mean_stats "EVI" = inr evi ->
  safe_val mean_stats "NDWI" = inr ndwi ->
  safe_val mean_stats "MSI" = inr msi ->
  safe_val mean_stats "B3" = inr green ->
  safe_val mean_stats "B4" = inr red ->
  safe_val mean_stats "B8" = inr nir ->
  health_status crop_type ndvi ndvi_min ndvi_max = inr hs ->
  exists url : string,
    analyze_farm py_str crop_ranges W request
    = ({| body := jsonify [
            ("indices", jsonify [
               ("NDVI", JNum ndvi); ("EVI", JNum evi); ("NDWI", JNum ndwi);
               ("MSI", JNum msi); ("GREEN", JNum green); ("RED", JNum red);
               ("NIR", JNum nir)]);
            ("weather", weather_of cur);
            ("crop_type", JStr crop_type);
            ("healthy_range",
             JStr (py_str ndvi_min +:+ " - " +:+ py_str ndvi_max));
            ("health_status", JStr hs)];
          status := 200 |},
       pipeline_calls coords url).
Proof.
  intros Hacc Hup H1 H2 H3 H4 H5 H6 H7 Hhs. open_accepted Hacc.
  destruct Hup as (n & names & lon & lat & forecast & Hsize & Hn & Hnames
                   & Hbands & Hstats & Hcentroid & Hweather & Hcur).
  exists (weather_url py_str lat lon). now run_handler.
Qed.

Lemma success_when_all_steps_succeed_witness :
  exists url : string,
    Scenario.run Scenario.clear_sky Scenario.wheat_request
    = ({| body := jsonify [
            ("indices", jsonify [
               ("NDVI", Scenario.decimal 55 2); ("EVI", Scenario.decimal 4 1);
               ("NDWI", Scenario.decimal 1 1); ("MSI", Scenario.decimal 9 1);
               ("GREEN", Scenario.decimal 5 2); ("RED", Scenario.decimal 7 2);
               ("NIR", Scenario.decimal 3 1)]);
            ("weather", weather_of Scenario.current);
            ("crop_type", JStr "wheat");
            ("healthy_range",
             JStr (Scenario.str (Scenario.decimal 3 1) +:+ " - "
                   +:+ Scenario.str (Scenario.decimal 7 1)));
            ("health_status", JStr "Wheat crop appears Healthy.")];
          status := 200 |},
       pipeline_calls Scenario.square url).
Proof.
  apply (success_when_all_steps_succeed Scenario.str Scenario.ranges
           Scenario.clear_sky Scenario.wheat_request Scenario.square "wheat"
           "Wheat crop appears Healthy."
           (Scenario.decimal 3 1) (Scenario.decimal 7 1)
           Scenario.stats Scenario.current
           (NFloat (float_of_decimal false 55 2))
           (NFloat (float_of_decimal false 4 1))
           (NFloat (float_of_decimal false 1 1))
           (NFloat (float_of_decimal false 9 1))
           (NFloat (float_of_decimal false 5 2))
           (NFloat (float_of_decimal false 7 2))
           (NFloat (float_of_decimal false 3 1))).
  - scenario_accepted.
  - scenario_upstream.
  - vm_compute; reflexivity.
  - vm_compute; reflexivity.
  - vm_compute; reflexivity.
  - vm_compute; reflexivity.
  - vm_compute; reflexivity.
  - vm_compute; reflexivity.
  - vm_compute; reflexivity.
  - vm_compute; reflexivity.
Defined.
